(** * AuraFarmers harassment detector: the front-end scoring and batch core

    A shallow embedding of the TypeScript functions that decide the
    scoring, validation, batch-input, export, polling and upload rules:

    - [lib/utils.ts]                : [validateTextInput], [calculateOverallRisk]
    - [HarassmentDetectionDemo.tsx] : [analyzeText]
    - [TextAnalysisDemo.tsx]        : [handleAnalyze]
    - [BatchAnalysisDemo.tsx]       : [addTextBox], [removeTextBox], [updateText],
                                      [loadSampleData], [clearAll],
                                      [exportResults], [getOverallStats]
    - [FileUploadDemo.tsx]          : [handleFileSelect], [startPolling],
                                      [getJobStats]

    Conventions of the embedding.

    - A JavaScript number that is finite is modelled by the rational it
      denotes ([Q]); comparisons, [Math.max] and [Math.min] of finite
      doubles are exact, so they agree with the same operations on
      rationals.  A decimal literal of the source is the decimal rational
      of the same spelling: rounding to a double is monotone, so two
      short decimal literals compare as the decimals do.  Sums, products
      and quotients are the exact ones, without the rounding of the last
      bit.  Where the source can produce NaN (a division of two lengths)
      the result type [number] adds NaN and the infinities.
    - A JavaScript string is a [string] of code units in the Latin-1 range
      (U+0000 to U+00FF); [length] is the number of code units.
    - React state is passed explicitly: a handler is a function from the
      state it closes over to the state it sets, together with the
      requests it sends.  [Math.random] draws and server replies are
      arguments. *)

From Stdlib Require Import QArith Qminmax Qround Qabs Lqa.
From Stdlib Require Import ZArith NArith Arith Bool List Lia.
From Stdlib Require Import Ascii String DecimalString.
Import ListNotations.

Set Implicit Arguments.

Close Scope Q_scope.
Local Open Scope nat_scope.
Local Open Scope bool_scope.

(* ================================================================== *)
(** * JavaScript strings *)

Module JSString.

Local Open Scope string_scope.
Local Open Scope nat_scope.

(** Code unit of a character. *)
Definition code (c : ascii) : nat := nat_of_ascii c.

(** The quotation mark U+0022 and the line feed U+000A. *)
Definition dquote : ascii := ascii_of_nat 34.
Definition newline : ascii := ascii_of_nat 10.

(** WhiteSpace and LineTerminator code units below U+0100: TAB, LF, VT,
    FF, CR, SPACE and NO-BREAK SPACE. *)
Definition isWhiteSpace (c : ascii) : bool :=
  let n := code c in
  ((9 <=? n) && (n <=? 13)) || (n =? 32) || (n =? 160).

Fixpoint trimStart (s : string) : string :=
  match s with
  | EmptyString => EmptyString
  | String c s' => if isWhiteSpace c then trimStart s' else s
  end.

Fixpoint trimEnd (s : string) : string :=
  match s with
  | EmptyString => EmptyString
  | String c s' =>
      match trimEnd s' with
      | EmptyString => if isWhiteSpace c then EmptyString
                       else String c EmptyString
      | t => String c t
      end
  end.

(** Every code unit of the string is white space. *)
Fixpoint allWhite (s : string) : bool :=
  match s with
  | EmptyString => true
  | String c s' => isWhiteSpace c && allWhite s'
  end.

(** [c] is one of the code units of [s]. *)
Fixpoint occurs (c : ascii) (s : string) : Prop :=
  match s with
  | EmptyString => False
  | String c' s' => c' = c \/ occurs c s'
  end.

(** [String.prototype.trim]. *)
Definition trim (s : string) : string := trimEnd (trimStart s).

(** ToBoolean of a string: only the empty string is falsy. *)
Definition truthy (s : string) : bool :=
  match s with EmptyString => false | _ => true end.

(** Lower-casing of one Latin-1 code unit: A-Z, and the accented capitals
    U+00C0 to U+00DE except the multiplication sign U+00D7. *)
Definition lowerChar (c : ascii) : ascii :=
  let n := code c in
  if ((65 <=? n) && (n <=? 90))
     || ((192 <=? n) && (n <=? 222) && negb (n =? 215))
  then ascii_of_nat (n + 32) else c.

Fixpoint toLowerCase (s : string) : string :=
  match s with
  | EmptyString => EmptyString
  | String c s' => String (lowerChar c) (toLowerCase s')
  end.

(** [String.prototype.includes]: [needle] occurs in [s]. *)
Fixpoint includes (s needle : string) : bool :=
  prefix needle s
  || match s with
     | EmptyString => false
     | String _ s' => includes s' needle
     end.

(** [s.split(sep)] for a separator of one code unit: never empty, the
    pieces between the occurrences of [sep]. *)
Fixpoint split (sep : ascii) (s : string) : list string :=
  match s with
  | EmptyString => [EmptyString]
  | String c s' =>
      if Ascii.eqb c sep then EmptyString :: split sep s'
      else match split sep s' with
           | [] => [String c EmptyString]
           | p :: ps => String c p :: ps
           end
  end.

(** [Array.prototype.pop] read as an expression: the last element, or
    [None] (undefined) on an empty array. *)
Definition pop (l : list string) : option string :=
  match rev l with
  | [] => None
  | x :: _ => Some x
  end.

(** [Array.prototype.join]. *)
Fixpoint join (sep : string) (l : list string) : string :=
  match l with
  | [] => EmptyString
  | [x] => x
  | x :: xs => x ++ sep ++ join sep xs
  end.

(** Decimal spelling of a natural number, as a template literal prints
    a non-negative integer. *)
Definition ofNat (n : nat) : string :=
  NilZero.string_of_uint (Nat.to_uint n).

Definition ofBool (b : bool) : string := if b then "true" else "false".

End JSString.

(* ================================================================== *)
(** * JavaScript numbers *)

Module JSNumber.

Local Open Scope Q_scope.

(** [x < y] and [x >= y] on finite numbers. *)
Definition lt (x y : Q) : bool := negb (Qle_bool y x).
Definition ge (x y : Q) : bool := Qle_bool y x.
Definition gt (x y : Q) : bool := lt y x.

(** [Math.max] and [Math.min] of two finite numbers. *)
Definition Math_max (x y : Q) : Q := if lt x y then y else x.
Definition Math_min (x y : Q) : Q := if lt y x then y else x.

(** A confidence: a number of the closed interval from 0 to 1. *)
Definition inUnit (q : Q) : Prop := 0 <= q /\ q <= 1.

(** A number as an arithmetic expression of the source can yield it: a
    finite value, NaN or an infinity. *)
Inductive number : Type :=
| Finite (q : Q)
| NaN
| PosInfinity
| NegInfinity.

(** [x / y] on finite operands: a zero divisor gives NaN for [0 / 0] and
    an infinity otherwise, never an exception. *)
Definition div (x y : Q) : number :=
  if Qeq_bool y 0 then
    if Qeq_bool x 0 then NaN
    else if lt x 0 then NegInfinity else PosInfinity
  else Finite (x / y).

(** [x * k] for a finite [k]. *)
Definition mul (x : number) (k : Q) : number :=
  match x with
  | Finite q => Finite (q * k)
  | NaN => NaN
  | PosInfinity =>
      if Qeq_bool k 0 then NaN else if lt k 0 then NegInfinity else PosInfinity
  | NegInfinity =>
      if Qeq_bool k 0 then NaN else if lt k 0 then PosInfinity else NegInfinity
  end.

Fixpoint zeros (k : nat) : string :=
  match k with
  | O => EmptyString
  | S k' => String "0" (zeros k')
  end.

(** Decimal digits of a non-negative integer. *)
Definition digits (n : Z) : string :=
  NilZero.string_of_uint (N.to_uint (Z.to_N n)).

(** [Number.prototype.toFixed(f)] on a finite value below 10^21: the
    integer [n] nearest to [x * 10^f], the larger one on a tie, printed
    with [f] digits after the point. *)
Definition toFixedQ (f : nat) (x : Q) : string :=
  let s := (if lt x 0 then "-" else EmptyString)%string in
  let ax := Qabs x in
  let n := Qfloor (ax * inject_Z (10 ^ Z.of_nat f) + (1 # 2)) in
  let m := digits n in
  let m :=
    match f with
    | O => m
    | _ =>
        let k := String.length m in
        let m := if (k <=? f)%nat then (zeros (f + 1 - k) ++ m)%string else m in
        let k := String.length m in
        (substring 0 (k - f) m ++ "." ++ substring (k - f) f m)%string
    end in
  (s ++ m)%string.

Definition toFixed (f : nat) (x : number) : string :=
  match x with
  | Finite q => toFixedQ f q
  | NaN => "NaN"%string
  | PosInfinity => "Infinity"%string
  | NegInfinity => "-Infinity"%string
  end.

End JSNumber.

(* ================================================================== *)
(** * lib/utils.ts *)

Module Utils.

Import JSString JSNumber.
Local Open Scope string_scope.

Record Validation : Type := mkValidation {
  isValid : bool;
  error : option string   (* [None]: the property is absent *)
}.

(** Default of the parameter [maxLength]. *)
Definition defaultMaxLength : nat := 500.

(** [validateTextInput(text, maxLength = 500)]. *)
Definition validateTextInput (text : string) (maxLength : nat) : Validation :=
  if negb (truthy (trim text)) then
    mkValidation false (Some "Text cannot be empty")
  else if (maxLength <? String.length text)%nat then
    mkValidation false
      (Some ("Text must be " ++ ofNat maxLength ++ " characters or less"))
  else
    mkValidation true None.

Inductive RiskLevel : Type := low | medium | high | critical.

Record OverallRisk : Type := mkOverallRisk {
  score : Q;
  level : RiskLevel
}.

(** [calculateOverallRisk(harassmentScore, misogynyScore)]. *)
Definition calculateOverallRisk (harassmentScore misogynyScore : Q)
  : OverallRisk :=
  let combined := Math_max harassmentScore misogynyScore in
  if lt combined 0.3 then mkOverallRisk combined low
  else if lt combined 0.6 then mkOverallRisk combined medium
  else if lt combined 0.8 then mkOverallRisk combined high
  else mkOverallRisk combined critical.

(** The eight boundary values of the threshold table, as combined
    scores, and the levels the table gives them. *)
Definition boundaryScores : list Q :=
  [0; 0.29; 0.3; 0.59; 0.6; 0.79; 0.8; 1]%Q.

Definition boundaryLevels : list RiskLevel :=
  [low; low; medium; medium; high; high; critical; critical].

(** [formatConfidence(confidence)]. *)
Definition formatConfidence (confidence : Q) : string :=
  toFixedQ 1 (confidence * 100) ++ "%".

End Utils.

(* ================================================================== *)
(** * types/api.ts *)

Module Types.

Import Utils.

Inductive Label : Type := toxic | non_toxic.

Record ModelPrediction : Type := mkModelPrediction {
  label : Label;
  confidence : Q;
  threshold : Q
}.

Record Predictions : Type := mkPredictions {
  pred_harassment : ModelPrediction;
  pred_misogyny : ModelPrediction
}.

Record ToxicityScores : Type := mkToxicityScores {
  harassment : Q;
  misogyny : Q;
  combined : Q
}.

Record AnalyzeTextResponse : Type := mkAnalyzeTextResponse {
  text : string;
  predictions : Predictions;
  toxicity_scores : ToxicityScores;
  is_toxic : bool;
  is_harassment : bool;
  riskLevel : RiskLevel;
  flagged_categories : list string
}.

(** The fields of [BatchAnalysisStats] that the front end reads; [None]
    is a property the reply does not carry. *)
Record BatchAnalysisStats : Type := mkBatchAnalysisStats {
  total_comments : option Q;
  toxic_comments : option Q;
  harassment_count : option Q;
  harassment_percentage : option Q
}.

Inductive JobStatus : Type := queued | processing | completed | failed.

Record BatchAnalysisResult : Type := mkBatchAnalysisResult {
  jobId : string;
  status : JobStatus;
  progress : nat;
  results : option (list AnalyzeTextResponse);
  statistics : option BatchAnalysisStats;
  error : option string
}.

(** The spelling of a risk level inside a template literal. *)
Definition riskLevelString (r : RiskLevel) : string :=
  match r with
  | low => "low"
  | medium => "medium"
  | high => "high"
  | critical => "critical"
  end.

End Types.

(* ================================================================== *)
(** * What a handler does besides setting state *)

Module Effects.

Inductive Body : Type :=
| AnalyzeBody (text : string) (include_details : bool)
| BatchBody (texts : list string) (include_statistics : bool)
| TextBody (text : string).

Record Toast : Type := mkToast {
  title : string;
  description : string;
  destructive : bool
}.

Inductive Effect : Type :=
| Post (url : string) (body : Body)
| Get (url : string)
| ShowToast (t : Toast).

Definition isRequest (e : Effect) : bool :=
  match e with
  | Post _ _ | Get _ => true
  | ShowToast _ => false
  end.

(** The requests among the effects, in the order they were sent. *)
Definition requests (l : list Effect) : list Effect := filter isRequest l.

(** [a || b] on strings that may be undefined. *)
Definition orElse (a : option string) (b : string) : string :=
  match a with
  | Some s => if JSString.truthy s then s else b
  | None => b
  end.

End Effects.

(* ================================================================== *)
(** * components/HarassmentDetectionDemo.tsx *)

Module HarassmentDetectionDemo.

Import JSString JSNumber Effects.
Local Open Scope string_scope.
Local Open Scope Q_scope.

Record Scores : Type := mkScores {
  harassment_score : Q;
  misogyny_score : Q;
  toxicity_score : Q
}.

Record Result : Type := mkResult {
  scores : Scores;
  is_harassment : bool;
  is_toxic : bool
}.

Record PlatformResult : Type := mkPlatformResult {
  platform : string;
  text : string;
  result : Result;
  isFlagged : bool
}.

Record State : Type := mkState {
  st_text : string;
  isAnalyzing : bool;
  results : list PlatformResult;
  selectedPlatform : string
}.

(** What [fetch] and [response.json()] come back with. *)
Inductive FetchOutcome : Type :=
| FetchRejected
| Responded (ok : bool) (bodyIsJson : bool).

(** The three [Math.random()] draws of one call, in evaluation order. *)
Record Draws : Type := mkDraws {
  draw_harassment : Q;
  draw_misogyny : Q;
  draw_toxicity : Q
}.

Definition threshold : Q := 0.7.

(** The object literal [simulatedResult] followed by the three
    [Math.min(..., 1)] assignments.  The products and the sum are the
    exact ones; the doubles of the code can differ from them in the last
    bit, which shows only where a score meets the threshold exactly. *)
Definition simulatedResult (text : string) (d : Draws) : Scores :=
  let lower := toLowerCase text in
  let h := draw_harassment d * (if includes lower "bitch" then 0.7 else 0.4)
           + (if includes lower "hate" then 0.3 else 0) in
  let m := draw_misogyny d
           * (if includes lower "woman" || includes lower "girl"
              then 0.6 else 0.2) in
  let t := draw_toxicity d
           * (if includes lower "stupid" || includes lower "idiot"
              then 0.5 else 0.3) in
  mkScores (Math_min h 1) (Math_min m 1) (Math_min t 1).

(** The [newResult] built from the scores. *)
Definition newResult (platform text : string) (s : Scores) : PlatformResult :=
  let isFlagged :=
    ge (harassment_score s) threshold
    || ge (misogyny_score s) threshold
    || ge (toxicity_score s) threshold in
  mkPlatformResult platform text
    (mkResult s
       (ge (harassment_score s) threshold)
       (ge (toxicity_score s) threshold))
    isFlagged.

Definition analysisFailedToast : Toast :=
  mkToast "Analysis Failed"
          "Could not analyze the content. Please try again." true.

(** [analyzeText]: the state it leaves and the effects, given the reply
    of the server and the random draws. *)
Definition analyzeText (st : State) (reply : FetchOutcome) (d : Draws)
  : State * list Effect :=
  let text := st_text st in
  if negb (truthy (trim text)) then
    (st, [ShowToast (mkToast "Empty Text"
                       "Please enter some text to analyze." true)])
  else
    let request := Post "/api/analyze" (TextBody text) in
    match reply with
    | Responded true true =>
        let r := newResult (selectedPlatform st) text (simulatedResult text d) in
        let toast :=
          if isFlagged r then
            mkToast "Content Flagged"
              "This content contains potentially harmful language." true
          else
            mkToast "Content Analyzed" "No harmful content detected." false in
        (mkState text false (r :: results st) (selectedPlatform st),
         [request; ShowToast toast])
    | _ =>
        (mkState text false (results st) (selectedPlatform st),
         [request; ShowToast analysisFailedToast])
    end.

(** A state and draws used as a concrete case: the text holds the two
    key words of the harassment axis, the first draw is 0.9. *)
Definition flaggedState : State := mkState "hate, bitch" false [] "twitter".

Definition flaggedDraws : Draws := mkDraws 0.9 0.5 0.5.

End HarassmentDetectionDemo.

(* ================================================================== *)
(** * components/TextAnalysisDemo.tsx *)

Module TextAnalysisDemo.

Import JSString JSNumber Utils Types Effects.
Local Open Scope string_scope.

Record State : Type := mkState {
  st_text : string;
  isAnalyzing : bool;
  result : option AnalyzeTextResponse;
  st_error : option string
}.

(** The outcome of [apiClient.post]: a reply, or a throw whose [message]
    may be missing. *)
Inductive ApiOutcome : Type :=
| Resolved (response : AnalyzeTextResponse)
| Rejected (message : option string).

Definition isHighRisk (r : RiskLevel) : bool :=
  match r with
  | high | critical => true
  | _ => false
  end.

Definition upper (r : RiskLevel) : string :=
  match r with
  | low => "LOW"
  | medium => "MEDIUM"
  | high => "HIGH"
  | critical => "CRITICAL"
  end.

(** [handleAnalyze]. *)
Definition handleAnalyze (st : State) (reply : ApiOutcome)
  : State * list Effect :=
  let text := st_text st in
  let validation := validateTextInput text defaultMaxLength in
  if negb (isValid validation) then
    (mkState text (isAnalyzing st) (result st)
       (Some (orElse (Utils.error validation) "Invalid input")),
     [])
  else
    let request := Post "/api/analyze" (AnalyzeBody (trim text) true) in
    match reply with
    | Resolved response =>
        (mkState text false (Some response) None,
         request ::
         (if isHighRisk (riskLevel response) then
            [ShowToast (mkToast "High Risk Content Detected"
                          ("Risk level: " ++ upper (riskLevel response)) true)]
          else []))
    | Rejected message =>
        let errorMessage :=
          orElse message "Failed to analyze text. Please try again." in
        (mkState text false None (Some errorMessage),
         [request; ShowToast (mkToast "Analysis Failed" errorMessage true)])
    end.

End TextAnalysisDemo.

(* ================================================================== *)
(** * components/BatchAnalysisDemo.tsx *)

Module BatchAnalysisDemo.

Import JSString JSNumber Utils Types Effects.
Local Open Scope string_scope.

Record State : Type := mkState {
  texts : list string;
  isAnalyzing : bool;
  st_results : list AnalyzeTextResponse;
  st_error : option string
}.

(** [useState([''])], [useState(false)], [useState([])], [useState(null)]. *)
Definition initialState : State := mkState [EmptyString] false [] None.

Definition setTexts (st : State) (l : list string) : State :=
  mkState l (isAnalyzing st) (st_results st) (st_error st).

(** [addTextBox]. *)
Definition addTextBox (st : State) : State :=
  if (List.length (texts st) <? 10)%nat
  then setTexts st (texts st ++ [EmptyString])%list
  else st.

(** [l.filter((x, i) => f x i)], the index counted from [i]. *)
Fixpoint filterFrom {A : Type} (f : A -> nat -> bool) (i : nat) (l : list A)
  : list A :=
  match l with
  | [] => []
  | x :: l' =>
      if f x i then x :: filterFrom f (S i) l' else filterFrom f (S i) l'
  end.

Definition filterIndexed {A : Type} (f : A -> nat -> bool) (l : list A)
  : list A := filterFrom f 0 l.

(** [removeTextBox(index)]. *)
Definition removeTextBox (st : State) (index : nat) : State :=
  if (1 <? List.length (texts st))%nat
  then setTexts st
         (filterIndexed (fun _ i => negb (i =? index)%nat) (texts st))
  else st.

(** [newTexts[index] = value] on a copy, for an index inside the array. *)
Fixpoint assign (l : list string) (index : nat) (value : string)
  : list string :=
  match l, index with
  | [], _ => []
  | _ :: l', O => value :: l'
  | x :: l', S i => x :: assign l' i value
  end.

(** [updateText(index, value)].  The index is the one [texts.map] gave to
    the textarea that changed, so it is inside the array; [None] stands
    for an index past the end, where the assignment would grow the array
    and leave holes, which no event of the component does. *)
Definition updateText (st : State) (index : nat) (value : string)
  : option State :=
  if (index <? List.length (texts st))%nat
  then Some (setTexts st (assign (texts st) index value))
  else None.

(** [loadSampleData]. *)
Definition sampleData : list string :=
  [ "This is a normal, friendly comment.";
    "You're such an idiot, you should just disappear.";
    "Great work on this project!";
    "Women don't belong in tech, go back to the kitchen.";
    "I love this community, everyone is so helpful." ].

Definition loadSampleData (st : State) : State := setTexts st sampleData.

(** [clearAll]. *)
Definition clearAll (st : State) : State :=
  mkState [EmptyString] (isAnalyzing st) [] None.

(** The outcome of the batch request. *)
Inductive ApiOutcome : Type :=
| Resolved (batchResults : list AnalyzeTextResponse)
| Rejected (message : option string).

Definition isHighRisk (r : AnalyzeTextResponse) : bool :=
  match riskLevel r with
  | high | critical => true
  | _ => false
  end.

(** [handleBatchAnalysis]. *)
Definition handleBatchAnalysis (st : State) (reply : ApiOutcome)
  : State * list Effect :=
  let validTexts :=
    filter (fun t => (0 <? String.length (trim t))%nat) (texts st) in
  if (List.length validTexts =? 0)%nat then
    (mkState (texts st) (isAnalyzing st) (st_results st)
       (Some "Please enter at least one text to analyze"),
     [])
  else
    let request := Post "/api/analyze/batch" (BatchBody validTexts true) in
    match reply with
    | Resolved rs =>
        let toxicCount := List.length (filter isHighRisk rs) in
        let toast :=
          if (0 <? toxicCount)%nat then
            mkToast "Toxic Content Detected"
              ("Found " ++ ofNat toxicCount
               ++ " potentially toxic items out of "
               ++ ofNat (List.length rs)) true
          else
            mkToast "Analysis Complete"
              ("All " ++ ofNat (List.length rs) ++ " texts appear safe")
              false in
        (mkState (texts st) false rs None, [request; ShowToast toast])
    | Rejected message =>
        let errorMessage :=
          orElse message "Failed to analyze texts. Please try again." in
        (mkState (texts st) false [] (Some errorMessage),
         [request; ShowToast (mkToast "Batch Analysis Failed" errorMessage true)])
    end.

Section CsvExport.

(** [Number::toString], the decimal spelling a template literal gives a
    score; the export does not depend on which digits it prints. *)
Variable Number_toString : Q -> string.

Record ExportRow : Type := mkExportRow {
  row_text : string;
  risk_level : RiskLevel;
  row_is_toxic : bool;
  row_harassment_score : Q;
  row_misogyny_score : Q;
  row_flagged_categories : string
}.

(** One element of [exportData]. *)
Definition exportRow (r : AnalyzeTextResponse) : ExportRow :=
  mkExportRow (text r) (riskLevel r) (is_toxic r)
    (harassment (toxicity_scores r)) (misogyny (toxicity_scores r))
    (join ", " (flagged_categories r)).

(** A value between quotation marks, as the template literal writes it. *)
Definition quoted (s : string) : string :=
  String dquote s ++ String dquote EmptyString.

(** The template literal of one line. *)
Definition csvLine (row : ExportRow) : string :=
  quoted (row_text row) ++ ","
  ++ quoted (riskLevelString (risk_level row)) ++ ","
  ++ quoted (ofBool (row_is_toxic row)) ++ ","
  ++ quoted (Number_toString (row_harassment_score row)) ++ ","
  ++ quoted (Number_toString (row_misogyny_score row)) ++ ","
  ++ quoted (row_flagged_categories row).

Definition csvHeader : string :=
  "Text,Risk Level,Is Toxic,Harassment Score,Misogyny Score,Flagged Categories".

(** [exportResults]: the text of the file offered for download, or
    [None] when the handler returns without one. *)
Definition exportResults (results : list AnalyzeTextResponse)
  : option string :=
  if (List.length results =? 0)%nat then None
  else
    let exportData := map exportRow results in
    Some (join (String newline EmptyString)
            (csvHeader :: map csvLine exportData)).

(** A harmless item with the text [t], and an item whose text holds
    quotation marks, commas and a line feed: the rest of the line of
    [plainItem "a"] and the beginning of the line of [plainItem "b"]. *)
Definition neutral : Predictions :=
  mkPredictions (mkModelPrediction non_toxic 0 0.5)
                (mkModelPrediction non_toxic 0 0.5).

Definition plainItem (t : string) : AnalyzeTextResponse :=
  mkAnalyzeTextResponse t neutral (mkToxicityScores 0 0 0) false false low [].

Definition forgedText : string :=
  "a" ++ String dquote "," ++ quoted "low" ++ "," ++ quoted "false" ++ ","
  ++ quoted (Number_toString 0) ++ "," ++ quoted (Number_toString 0) ++ ","
  ++ quoted EmptyString ++ String newline (String dquote "b").

Definition forgedItem : AnalyzeTextResponse := plainItem forgedText.

End CsvExport.

Record OverallStats : Type := mkOverallStats {
  total : nat;
  toxic : nat;
  safe : nat;
  avgHarassment : string;
  avgMisogyny : string
}.

(** [results.reduce((sum, r) => sum + f r, 0)]. *)
Definition sumBy (f : AnalyzeTextResponse -> Q)
  (results : list AnalyzeTextResponse) : Q :=
  fold_left (fun sum r => (sum + f r)%Q) results 0%Q.

(** [getOverallStats]. *)
Definition getOverallStats (results : list AnalyzeTextResponse)
  : option OverallStats :=
  if (List.length results =? 0)%nat then None
  else
    let n := inject_Z (Z.of_nat (List.length results)) in
    let toxicCount := List.length (filter is_toxic results) in
    let avgH := div (sumBy (fun r => harassment (toxicity_scores r)) results) n in
    let avgM := div (sumBy (fun r => misogyny (toxicity_scores r)) results) n in
    Some (mkOverallStats (List.length results) toxicCount
            (List.length results - toxicCount)
            (toFixed 3 avgH) (toFixed 3 avgM)).

(** ** The component as a transition system *)

(** What the user can do to the component. *)
Inductive Event : Type :=
| AddTextBox
| RemoveTextBox (index : nat)
| UpdateText (index : nat) (value : string)
| LoadSampleData
| ClearAll
| HandleBatchAnalysis (reply : ApiOutcome).

(** The state a handler sets; [None] when the event cannot happen. *)
Definition handle (st : State) (e : Event) : option State :=
  match e with
  | AddTextBox => Some (addTextBox st)
  | RemoveTextBox index => Some (removeTextBox st index)
  | UpdateText index value => updateText st index value
  | LoadSampleData => Some (loadSampleData st)
  | ClearAll => Some (clearAll st)
  | HandleBatchAnalysis reply => Some (fst (handleBatchAnalysis st reply))
  end.

Inductive reachable : State -> Prop :=
| reach_initial : reachable initialState
| reach_handle st e st' :
    reachable st -> handle st e = Some st' -> reachable st'.

(** The bound on the number of text boxes. *)
Definition withinBounds (st : State) : Prop :=
  (1 <= List.length (texts st) <= 10)%nat.

End BatchAnalysisDemo.

(* ================================================================== *)
(** * components/FileUploadDemo.tsx *)

Module FileUploadDemo.

Import JSString JSNumber Utils Types Effects.
Local Open Scope string_scope.

Record File : Type := mkFile {
  name : string;
  size : N;       (* in bytes *)
  type : string
}.

Record State : Type := mkState {
  file : option File;
  isUploading : bool;
  uploadProgress : nat;
  jobStatus : option BatchAnalysisResult;
  isPolling : bool;
  st_error : option string
}.

Definition allowedTypes : list string := [".txt"; ".csv"].

(** [allowedTypes.includes(x)]. *)
Definition arrayIncludes (l : list string) (x : string) : bool :=
  existsb (String.eqb x) l.

(** ['.' + selectedFile.name.split('.').pop()?.toLowerCase()]; an
    undefined operand of [+] is spelled out. *)
Definition fileExtension (f : File) : string :=
  "." ++ match pop (split "." (name f)) with
         | Some last => toLowerCase last
         | None => "undefined"
         end.

Definition maxFileSize : N := 10 * 1024 * 1024.

(** [handleFileSelect]; [selected] is [event.target.files?.[0]]. *)
Definition handleFileSelect (st : State) (selected : option File) : State :=
  match selected with
  | None => st
  | Some selectedFile =>
      if negb (arrayIncludes allowedTypes (fileExtension selectedFile)) then
        mkState (file st) (isUploading st) (uploadProgress st) (jobStatus st)
          (isPolling st) (Some "Please select a .txt or .csv file")
      else if (maxFileSize <? size selectedFile)%N then
        mkState (file st) (isUploading st) (uploadProgress st) (jobStatus st)
          (isPolling st) (Some "File size must be less than 10MB")
      else
        mkState (Some selectedFile) (isUploading st) (uploadProgress st)
          (jobStatus st) (isPolling st) None
  end.

(** ** Polling *)

(** The delay given to [setInterval], in milliseconds. *)
Definition pollInterval : nat := 2000.

(** The component together with the timer that [startPolling] created
    and the status requests that have not come back yet. *)
Record Poller : Type := mkPoller {
  component : State;
  intervalActive : bool;
  pending : nat
}.

Inductive PollEvent : Type :=
| Tick                                   (* the interval fires *)
| Reply (status : BatchAnalysisResult)   (* a pending request resolves *)
| Failure.                               (* a pending request throws *)

Definition isTerminal (s : JobStatus) : bool :=
  match s with
  | completed | failed => true
  | queued | processing => false
  end.

Definition setPolling (st : State) (b : bool) : State :=
  mkState (file st) (isUploading st) (uploadProgress st) (jobStatus st)
    b (st_error st).

Definition setJobStatus (st : State) (j : BatchAnalysisResult) : State :=
  mkState (file st) (isUploading st) (uploadProgress st) (Some j)
    (isPolling st) (st_error st).

(** [startPolling(jobId)]: [setIsPolling(true)] and a new interval. *)
Definition startPolling (st : State) : Poller :=
  mkPoller (setPolling st true) true 0.

Definition completionToast (j : BatchAnalysisResult) : Toast :=
  match status j with
  | completed =>
      mkToast "Analysis Complete"
        ("Processed "
         ++ ofNat (match results j with Some rs => List.length rs | None => 0 end)
         ++ " texts successfully") false
  | _ =>
      mkToast "Analysis Failed"
        (orElse (Types.error j) "Processing failed") true
  end.

(** One turn of the event loop for the interval of job [jobId]: the
    callback up to its [await] on a tick, and the rest of the callback
    when the request it awaits comes back. *)
Definition pollStep (jobId : string) (p : Poller) (e : PollEvent)
  : Poller * list Effect :=
  match e with
  | Tick =>
      if intervalActive p then
        (mkPoller (component p) true (S (pending p)),
         [Get ("/api/jobs/" ++ jobId)])
      else (p, [])
  | Reply j =>
      match pending p with
      | O => (p, [])
      | S n =>
          let c := setJobStatus (component p) j in
          if isTerminal (status j) then
            (mkPoller (setPolling c false) false n,
             [ShowToast (completionToast j)])
          else (mkPoller c (intervalActive p) n, [])
      end
  | Failure =>
      match pending p with
      | O => (p, [])
      | S n => (mkPoller (setPolling (component p) false) false n, [])
      end
  end.

(** A sequence of turns; the effects are collected in order. *)
Fixpoint pollRun (jobId : string) (p : Poller) (es : list PollEvent)
  : Poller * list Effect :=
  match es with
  | [] => (p, [])
  | e :: es' =>
      let (p1, out1) := pollStep jobId p e in
      let (p2, out2) := pollRun jobId p1 es' in
      (p2, (out1 ++ out2)%list)
  end.

(** ** Job statistics *)

Record JobStats : Type := mkJobStats {
  total : Q;
  toxic : Q;
  safe : Q;
  toxicPercentage : string
}.

(** [x || y] on a number [x] that may be undefined: zero is falsy. *)
Definition orNum (x : option Q) (y : Q) : Q :=
  match x with
  | Some q => if Qeq_bool q 0 then y else q
  | None => y
  end.

Definition ofLength {A : Type} (l : list A) : Q :=
  inject_Z (Z.of_nat (List.length l)).

(** [getJobStats].  In the branch without statistics the percentage is
    printed from the exact quotient; the double of the code can print
    another last digit when the exact percentage is a tie of the
    rounding (23 of 80). *)
Definition getJobStats (st : State) : option JobStats :=
  match jobStatus st with
  | None => None
  | Some job =>
      match statistics job with
      | Some stats =>
          Some (mkJobStats
                  (orNum (total_comments stats) 0)
                  (orNum (harassment_count stats)
                     (orNum (toxic_comments stats) 0))
                  (orNum (total_comments stats) 0
                   - orNum (harassment_count stats) 0)%Q
                  (match harassment_percentage stats with
                   | Some pct => orElse (Some (toFixedQ 1 pct)) "0.0"
                   | None => "0.0"
                   end))
      | None =>
          match results job with
          | None => None
          | Some rs =>
              let harassmentCount :=
                ofLength (filter (fun item => is_harassment item || is_toxic item) rs) in
              let totalCount := ofLength rs in
              Some (mkJobStats totalCount harassmentCount
                      (totalCount - harassmentCount)%Q
                      (toFixed 1 (mul (div harassmentCount totalCount) 100)))
          end
      end
  end.

(** ** Concrete cases *)

Definition noFile : State := mkState None false 0 None false None.

(** A file whose name has no dot, so no extension. *)
Definition extensionlessFile : File := mkFile "csv" 1 EmptyString.

(** The test that [handleFileSelect] makes of a file. *)
Definition accepted (f : File) : bool :=
  arrayIncludes allowedTypes (fileExtension f) && (size f <=? maxFileSize)%N.

(** A completed job with no item and no statistics. *)
Definition emptyJob : BatchAnalysisResult :=
  mkBatchAnalysisResult "job-1" completed 100 (Some []) None None.

Definition emptyJobState : State :=
  mkState None false 100 (Some emptyJob) false None.

(** Statistics that carry no percentage. *)
Definition bareStatistics : BatchAnalysisStats :=
  mkBatchAnalysisStats (Some 0%Q) (Some 0%Q) (Some 0%Q) None.

Definition bareStatisticsState : State :=
  mkState None false 100
    (Some (mkBatchAnalysisResult "job-1" completed 100 (Some [])
             (Some bareStatistics) None))
    false None.

(** The state [handleUpload] leaves before it calls [startPolling]. *)
Definition uploaded : State :=
  mkState (Some (mkFile "data.csv" 120 "text/csv")) true 100
    (Some (mkBatchAnalysisResult "job-1" processing 0 None None None))
    false None.

(** ** Vocabulary for traces of the poller *)

Definition isTick (e : PollEvent) : bool :=
  match e with Tick => true | _ => false end.

Definition isTerminalReply (e : PollEvent) : bool :=
  match e with Reply j => isTerminal (status j) | _ => false end.

Definition isFailure (e : PollEvent) : bool :=
  match e with Failure => true | _ => false end.

Definition countTicks (es : list PollEvent) : nat :=
  List.length (filter isTick es).

(** The poller after the events, and what it sent. *)
Definition after (jobId : string) (st : State) (es : list PollEvent) : Poller :=
  fst (pollRun jobId (startPolling st) es).

Definition sent (jobId : string) (p : Poller) (es : list PollEvent)
  : list Effect :=
  requests (snd (pollRun jobId p es)).

End FileUploadDemo.

(* ================================================================== *)
(** * lib/utils.ts, config/index.ts: the helpers around the scores *)

Module UtilsMore.

Import JSString JSNumber Utils.
Local Open Scope string_scope.

(** [truncateText(text, maxLength = 100)]; [text.slice(0, maxLength)] is
    [substring 0 maxLength text]. *)
Definition defaultTruncateLength : nat := 100.

Definition truncateText (text : string) (maxLength : nat) : string :=
  if (String.length text <=? maxLength)%nat then text
  else trim (substring 0 maxLength text) ++ "...".

(** [ANALYSIS_CONFIG.RISK_LEVELS], the thresholds in the order of the
    object literal. *)
Definition RISK_LEVELS : list (RiskLevel * Q) :=
  [(low, 0.3); (medium, 0.6); (high, 0.8); (critical, 1.0)]%Q.

(** The first level of a table whose threshold is above the score, the
    last level of the scale when there is none. *)
Definition levelFromTable (table : list (RiskLevel * Q)) (c : Q) : RiskLevel :=
  match find (fun entry => lt c (snd entry)) table with
  | Some entry => fst entry
  | None => critical
  end.

(** Draws that [Math.random] can return: at least 0 and below 1. *)
Definition validDraws (d : HarassmentDetectionDemo.Draws) : Prop :=
  (0 <= HarassmentDetectionDemo.draw_harassment d < 1
   /\ 0 <= HarassmentDetectionDemo.draw_misogyny d < 1
   /\ 0 <= HarassmentDetectionDemo.draw_toxicity d < 1)%Q.

(** Draws whose first one is low: with them no score reaches the
    threshold. *)
Definition calmDraws : HarassmentDetectionDemo.Draws :=
  HarassmentDetectionDemo.mkDraws 0.1 0.5 0.5.

(** The scale of the levels, from the mildest. *)
Definition rank (r : RiskLevel) : nat :=
  match r with
  | low => 0
  | medium => 1
  | high => 2
  | critical => 3
  end.

End UtilsMore.

(* ================================================================== *)
(** * components/FileUploadDemo.tsx: [handleUpload] *)

Module Upload.

Import JSString JSNumber Utils Types Effects FileUploadDemo.
Local Open Scope string_scope.

Record FileUploadResponse : Type := mkFileUploadResponse {
  up_jobId : string;
  up_filename : string;
  up_totalTexts : nat
}.

(** What [apiClient.uploadFile] comes back with. *)
Inductive UploadOutcome : Type :=
| Uploaded (r : FileUploadResponse)
| UploadFailed (message : option string).

Inductive UploadEffect : Type :=
| SendFile (f : File)
| UploadToast (t : Toast).

(** The updater given to [setUploadProgress] by the progress interval;
    at 90 it also clears that interval. *)
Definition progressUpdater (prev : nat) : nat :=
  if (90 <=? prev)%nat then 90 else prev + 10.

(** The progress shown after [ticks] turns of the progress interval,
    from the 0 that [handleUpload] sets. *)
Definition simulatedProgress (ticks : nat) : nat :=
  Nat.iter ticks progressUpdater 0.

Record UploadResult : Type := mkUploadResult {
  finalState : State;
  poller : option Poller;      (* the interval of [startPolling], if any *)
  effects : list UploadEffect
}.

Definition setUploading (st : State) (b : bool) : State :=
  mkState (file st) b (uploadProgress st) (jobStatus st) (isPolling st)
    (st_error st).

(** [handleUpload]; [ticks] turns of the progress interval pass before
    the upload comes back.  The state is the one the handler leaves when
    its [finally] has run. *)
Definition handleUpload (st : State) (ticks : nat) (outcome : UploadOutcome)
  : UploadResult :=
  match file st with
  | None => mkUploadResult st None []
  | Some f =>
      match outcome with
      | Uploaded r =>
          let job :=
            mkBatchAnalysisResult (up_jobId r) processing 0 None None None in
          let p :=
            startPolling
              (mkState (Some f) true 100 (Some job) (isPolling st) None) in
          let final := setUploading (component p) false in
          mkUploadResult final
            (Some (mkPoller final (intervalActive p) (pending p)))
            [SendFile f;
             UploadToast
               (mkToast "File Uploaded Successfully"
                  ("Processing " ++ ofNat (up_totalTexts r)
                   ++ " texts. Job ID: " ++ up_jobId r) false)]
      | UploadFailed message =>
          let errorMessage :=
            orElse message "Failed to upload file. Please try again." in
          mkUploadResult
            (mkState (Some f) false (simulatedProgress ticks) (jobStatus st)
               (isPolling st) (Some errorMessage))
            None
            [SendFile f;
             UploadToast (mkToast "Upload Failed" errorMessage true)]
      end
  end.

End Upload.

(* ================================================================== *)
(** * components/ApiStatusDemo.tsx *)

Module ApiStatusDemo.

Import JSString JSNumber.
Local Open Scope string_scope.

(** Rounding toward zero, and the remainder [x % y] that takes the sign
    of the dividend. *)
Definition truncate (x : Q) : Z :=
  if lt x 0 then Qceiling x else Qfloor x.

Definition remainder (x y : Q) : Q :=
  (x - y * inject_Z (truncate (x / y)))%Q.

Definition uptimeHours (seconds : Q) : Z := Qfloor (seconds / 3600).

Definition uptimeMinutes (seconds : Q) : Z :=
  Qfloor (remainder seconds 3600 / 60).

(** An integer inside a template literal. *)
Definition ofZ (z : Z) : string :=
  if (z <? 0)%Z then "-" ++ digits (- z) else digits z.

(** [formatUptime(seconds)].  The quotients are the exact ones; for an
    uptime of at most 2^53 seconds the floors of the rounded quotients
    of the code are the same integers. *)
Definition formatUptime (seconds : Q) : string :=
  let hours := uptimeHours seconds in
  let minutes := uptimeMinutes seconds in
  if (0 <? hours)%Z then ofZ hours ++ "h " ++ ofZ minutes ++ "m"
  else ofZ minutes ++ "m".

End ApiStatusDemo.

(* ================================================================== *)
(** * hooks/useHarassmentAPI.ts: [useJobStatus] *)

Module Hooks.

Import JSString Types.
Local Open Scope string_scope.

(** A value of JavaScript, as far as the hook looks into it; the
    properties of an object are in the order they were set. *)
Inductive JSValue : Type :=
| JUndefined
| JNull
| JString (s : string)
| JObject (fields : Fields)
with Fields : Type :=
| NoField
| Field (key : string) (value : JSValue) (rest : Fields).

Fixpoint lookup (k : string) (fields : Fields) : JSValue :=
  match fields with
  | NoField => JUndefined
  | Field k' v rest => if String.eqb k k' then v else lookup k rest
  end.

(** [v?.k]. *)
Definition optProp (v : JSValue) (k : string) : JSValue :=
  match v with
  | JObject fields => lookup k fields
  | _ => JUndefined
  end.

(** [v === 'literal']. *)
Definition isString (v : JSValue) (literal : string) : bool :=
  match v with
  | JString s => String.eqb s literal
  | _ => false
  end.

(** The function given as [refetchInterval]: [Some] milliseconds, or
    [None] for [false]. *)
Definition refetchInterval (data : JSValue) : option nat :=
  let status := optProp (optProp data "job") "status" in
  if isString status "running" || isString status "queued"
  then Some 2000 else None.

(** The name of a status of the API, as the reply spells it. *)
Definition statusString (s : JobStatus) : string :=
  match s with
  | queued => "queued"
  | processing => "processing"
  | completed => "completed"
  | failed => "failed"
  end.

End Hooks.

(* ================================================================== *)
(** * contexts/AuthContext.tsx *)

Module AuthContext.

Import JSString JSNumber.
Local Open Scope string_scope.

Inductive UserRole : Type := admin | moderator | user_role.

Record User : Type := mkUser {
  id : string;
  email : string;
  name : string;
  role : UserRole
}.

(** [expiresAt] is the property that [isTokenExpired] reads and that
    [refreshAuth] writes; [None] when the tokens do not have it. *)
Record AuthTokens : Type := mkAuthTokens {
  accessToken : string;
  refreshToken : string;
  expiresAt : option Q
}.

Record AuthState : Type := mkAuthState {
  user : option User;
  isAuthenticated : bool;
  isLoading : bool;
  error : option string
}.

Inductive AuthAction : Type :=
| AUTH_START
| AUTH_SUCCESS (payload_user : User) (payload_tokens : AuthTokens)
| AUTH_FAILURE (payload : string)
| AUTH_LOGOUT
| AUTH_CLEAR_ERROR
| AUTH_UPDATE_USER (payload : User).

Definition initialState : AuthState := mkAuthState None false true None.

(** [authReducer]. *)
Definition authReducer (state : AuthState) (action : AuthAction) : AuthState :=
  match action with
  | AUTH_START =>
      mkAuthState (user state) (isAuthenticated state) true None
  | AUTH_SUCCESS u _ =>
      mkAuthState (Some u) true false None
  | AUTH_FAILURE payload =>
      mkAuthState None false false (Some payload)
  | AUTH_LOGOUT =>
      mkAuthState None false false None
  | AUTH_CLEAR_ERROR =>
      mkAuthState (user state) (isAuthenticated state) (isLoading state) None
  | AUTH_UPDATE_USER payload =>
      mkAuthState (Some payload) (isAuthenticated state) (isLoading state)
        (error state)
  end.

(** The state after a sequence of dispatches. *)
Definition dispatchAll (state : AuthState) (actions : list AuthAction)
  : AuthState :=
  fold_left authReducer actions state.

(** [5 * 60 * 1000]. *)
Definition bufferTime : Q := 300000.

(** [isTokenExpired(tokens)] at the time [now].  Without [expiresAt] the
    difference is NaN and the comparison with NaN is false. *)
Definition isTokenExpired (now : Q) (tokens : AuthTokens) : bool :=
  match expiresAt tokens with
  | Some e => ge now (e - bufferTime)%Q
  | None => false
  end.

End AuthContext.

(* ================================================================== *)
(** * services/api-client.ts *)

Module ApiClient.

Import JSNumber.
Local Open Scope Q_scope.

(** [API_CONFIG.RETRY_DELAY]. *)
Definition RETRY_DELAY : Q := 1000.

Definition maxDelay : Q := 30000.

(** [calculateBackoffDelay(retryCount)]; [jitter] is the value of
    [Math.random() * 1000]. *)
Definition calculateBackoffDelay (retryCount : nat) (jitter : Q) : Q :=
  let exponentialDelay := RETRY_DELAY * inject_Z (2 ^ Z.of_nat retryCount) in
  Math_min (exponentialDelay + jitter) maxDelay.

End ApiClient.

(* ================================================================== *)
(** * components/ScrollIndicator.tsx, components/ParticlesBackground.tsx *)

Module Decoration.

Import JSNumber.
Local Open Scope Q_scope.

(** What [handleScroll] sets: the progress and [showScrollTop], from the
    three measures of the document it reads. *)
Definition handleScroll (scrollTop scrollHeight clientHeight : Q)
  : number * bool :=
  let scrollPx := scrollTop in
  let winHeightPx := scrollHeight - clientHeight in
  let scrolled := mul (div scrollPx winHeightPx) 100 in
  (scrolled, gt scrollPx 500).

(** [Math.min(50, Math.max(20, window.innerWidth / 40))]. *)
Definition particleCount (innerWidth : Q) : Q :=
  Math_min 50 (Math_max 20 (innerWidth / 40)).

(** One coordinate of a particle after a frame: the move, then the two
    tests that wrap it around the edges of the canvas. *)
Definition moveWrapped (x speed extent : Q) : Q :=
  let x := x + speed in
  let x := if gt x extent then 0 else x in
  let x := if lt x 0 then extent else x in
  x.

End Decoration.

(* ================================================================== *)
(** * Facts about the JavaScript primitives *)

Module JSFacts.

Import JSString JSNumber.
Local Open Scope Q_scope.

Lemma lt_spec x y : lt x y = true <-> x < y.
Proof.
  unfold lt. rewrite negb_true_iff.
  split; intro H.
  - apply Qnot_le_lt. intro Hle.
    apply Qle_bool_iff in Hle. congruence.
  - destruct (Qle_bool y x) eqn:E; [|reflexivity].
    apply Qle_bool_iff in E. exfalso. exact (Qlt_not_le _ _ H E).
Qed.

Lemma lt_false x y : lt x y = false <-> y <= x.
Proof.
  unfold lt. rewrite negb_false_iff. apply Qle_bool_iff.
Qed.

Lemma ge_spec x y : ge x y = true <-> y <= x.
Proof. apply Qle_bool_iff. Qed.

Lemma Math_max_is_Qmax x y : Math_max x y == Qmax x y.
Proof.
  unfold Math_max. destruct (lt x y) eqn:E.
  - apply lt_spec in E. symmetry. apply Q.max_r. apply Qlt_le_weak, E.
  - apply lt_false in E. symmetry. apply Q.max_l, E.
Qed.

Lemma Math_max_cases x y : Math_max x y = x \/ Math_max x y = y.
Proof. unfold Math_max. destruct (lt x y); auto. Qed.

Lemma lt_compat x x' y y' : x == x' -> y == y' -> lt x y = lt x' y'.
Proof.
  intros Hx Hy. unfold lt. f_equal. apply Qleb_comp; assumption.
Qed.

Lemma Math_max_compat x x' y y' :
  x == x' -> y == y' -> Math_max x y == Math_max x' y'.
Proof.
  intros Hx Hy. rewrite !Math_max_is_Qmax. apply Q.max_compat; assumption.
Qed.

Lemma allWhite_false s :
  allWhite s = false <-> exists c, occurs c s /\ isWhiteSpace c = false.
Proof.
  induction s as [|c s IH]; simpl.
  - split; [discriminate | intros [c [[] _]]].
  - rewrite andb_false_iff, IH. split.
    + intros [Hc | [c' [Hin Hw]]]; [exists c | exists c']; auto.
    + intros [c' [[-> | Hin] Hw]]; [left | right; exists c']; auto.
Qed.

Lemma trimStart_empty s : trimStart s = EmptyString <-> allWhite s = true.
Proof.
  induction s as [|c s IH]; simpl.
  - split; reflexivity.
  - destruct (isWhiteSpace c); simpl.
    + exact IH.
    + split; discriminate.
Qed.

Lemma trimEnd_empty s : trimEnd s = EmptyString <-> allWhite s = true.
Proof.
  induction s as [|c s IH]; simpl.
  - split; reflexivity.
  - destruct (trimEnd s) eqn:E.
    + destruct (isWhiteSpace c); simpl.
      * split; intros _; [apply IH|]; reflexivity.
      * split; discriminate.
    + split; [discriminate|].
      rewrite andb_true_iff. intros [_ H]. apply IH in H. discriminate.
Qed.

Lemma allWhite_trimStart s : allWhite (trimStart s) = allWhite s.
Proof.
  induction s as [|c s IH]; simpl; [reflexivity|].
  destruct (isWhiteSpace c) eqn:E; simpl.
  - exact IH.
  - rewrite E. reflexivity.
Qed.

Lemma trim_empty s : trim s = EmptyString <-> allWhite s = true.
Proof.
  unfold trim. rewrite trimEnd_empty, allWhite_trimStart. reflexivity.
Qed.

Lemma append_assoc (a b c : string) :
  ((a ++ b) ++ c)%string = (a ++ (b ++ c))%string.
Proof.
  induction a as [|x a IH]; simpl; [reflexivity|]. rewrite IH. reflexivity.
Qed.

Lemma truthy_spec s : truthy s = true <-> s <> EmptyString.
Proof.
  destruct s; simpl; split; intro H; try congruence; try discriminate.
Qed.

Lemma truthy_trim s :
  truthy (trim s) = true <-> exists c, occurs c s /\ isWhiteSpace c = false.
Proof.
  rewrite <- allWhite_false, truthy_spec, trim_empty.
  destruct (allWhite s); split; congruence.
Qed.

End JSFacts.

(* ================================================================== *)
(** * Score aggregation: [calculateOverallRisk] *)

Module ScoreAggregation.

Import JSString JSNumber Utils JSFacts.
Local Open Scope Q_scope.

(** Whatever branch returns, the score is the combined value. *)
Lemma score_is_combined h m :
  score (calculateOverallRisk h m) = Math_max h m.
Proof.
  unfold calculateOverallRisk.
  destruct (lt (Math_max h m) 0.3); [reflexivity|].
  destruct (lt (Math_max h m) 0.6); [reflexivity|].
  destruct (lt (Math_max h m) 0.8); reflexivity.
Qed.

(** The level, read off the three comparisons in the order of the source. *)
Lemma level_by_cases h m :
  let c := Math_max h m in
  (c < 0.3 /\ level (calculateOverallRisk h m) = low)
  \/ (0.3 <= c /\ c < 0.6 /\ level (calculateOverallRisk h m) = medium)
  \/ (0.6 <= c /\ c < 0.8 /\ level (calculateOverallRisk h m) = high)
  \/ (0.8 <= c /\ level (calculateOverallRisk h m) = critical).
Proof.
  cbv zeta. unfold calculateOverallRisk.
  destruct (lt (Math_max h m) 0.3) eqn:E1.
  { left. apply lt_spec in E1. auto. }
  apply lt_false in E1.
  destruct (lt (Math_max h m) 0.6) eqn:E2.
  { right; left. apply lt_spec in E2. auto. }
  apply lt_false in E2.
  destruct (lt (Math_max h m) 0.8) eqn:E3.
  { right; right; left. apply lt_spec in E3. auto. }
  apply lt_false in E3. right; right; right. auto.
Qed.

Ltac order_clash :=
  match goal with
  | H1 : ?a <= ?x, H2 : ?x < ?b |- _ =>
      exfalso; apply (Qlt_irrefl a);
      apply (Qle_lt_trans _ _ _ H1);
      apply (Qlt_le_trans _ _ _ H2); unfold Qle; simpl; lia
  end.

(** C1. For every pair of harassment and misogyny confidences [h] and [m]
    of the interval from 0 to 1, the score returned by
    [calculateOverallRisk] is the maximum of the two: it equals [Qmax h m],
    it is at least [h] and at least [m], and it is one of them. *)
Theorem combined_score_is_max (h m : Q) (Hh : inUnit h) (Hm : inUnit m) :
  let r := calculateOverallRisk h m in
  score r == Qmax h m
  /\ h <= score r /\ m <= score r
  /\ (score r = h \/ score r = m)
  /\ inUnit (score r).
Proof.
  cbv zeta. rewrite score_is_combined.
  assert (E : Math_max h m == Qmax h m) by apply Math_max_is_Qmax.
  split; [exact E|].
  split; [rewrite E; apply Q.le_max_l|].
  split; [rewrite E; apply Q.le_max_r|].
  split; [apply Math_max_cases|].
  destruct (Math_max_cases h m) as [-> | ->]; assumption.
Qed.

Lemma combined_score_is_max_witness :
  let r := calculateOverallRisk 0.12 0.08 in
  score r == Qmax 0.12 0.08
  /\ 0.12 <= score r /\ 0.08 <= score r
  /\ (score r = 0.12 \/ score r = 0.08)
  /\ inUnit (score r).
Proof.
  apply (combined_score_is_max (h := 0.12) (m := 0.08));
    split; unfold Qle; simpl; lia.
Defined.

(** C2. For confidences of the interval from 0 to 1 the level returned by
    [calculateOverallRisk] follows the threshold table on the combined
    score [c]: low exactly when [c < 0.3], medium exactly when
    [0.3 <= c < 0.6], high exactly when [0.6 <= c < 0.8], critical exactly
    when [0.8 <= c]; so every score gets one tier and only one.  The
    boundary values 0, 0.29, 0.3, 0.59, 0.6, 0.79, 0.8 and 1 get low, low,
    medium, medium, high, high, critical and critical, on whichever axis
    they arrive. *)
Theorem risk_level_threshold_table :
  (forall h m : Q, inUnit h -> inUnit m ->
     let c := Math_max h m in
     let r := calculateOverallRisk h m in
     (level r = low <-> c < 0.3)
     /\ (level r = medium <-> 0.3 <= c /\ c < 0.6)
     /\ (level r = high <-> 0.6 <= c /\ c < 0.8)
     /\ (level r = critical <-> 0.8 <= c))
  /\ map (fun v => level (calculateOverallRisk v 0)) boundaryScores
     = boundaryLevels
  /\ map (fun v => level (calculateOverallRisk 0 v)) boundaryScores
     = boundaryLevels.
Proof.
  split; [|split; reflexivity].
  intros h m _ _. cbv zeta.
  destruct (level_by_cases h m)
    as [[A L] | [[A [B L]] | [[A [B L]] | [A L]]]];
    rewrite L; repeat split; intros; try discriminate; try assumption;
    repeat match goal with H : _ /\ _ |- _ => destruct H end;
    try order_clash.
Qed.

Lemma risk_level_threshold_table_witness :
  level (calculateOverallRisk 0.59 0.3) = medium
  <-> 0.3 <= Math_max 0.59 0.3 /\ Math_max 0.59 0.3 < 0.6.
Proof.
  refine (proj1 (proj2 (proj1 risk_level_threshold_table 0.59 0.3 _ _)));
    split; unfold Qle; simpl; lia.
Defined.

End ScoreAggregation.

(* ================================================================== *)
(** * Input validation: [validateTextInput] and [handleAnalyze] *)

Module InputValidation.

Import JSString JSNumber Utils Types Effects JSFacts.
Local Open Scope string_scope.

Lemma validateTextInput_cases text maxLength :
  (truthy (trim text) = false
   /\ validateTextInput text maxLength
      = mkValidation false (Some "Text cannot be empty"))
  \/ (truthy (trim text) = true /\ (maxLength < String.length text)%nat
      /\ validateTextInput text maxLength
         = mkValidation false
             (Some ("Text must be " ++ ofNat maxLength
                    ++ " characters or less")))
  \/ (truthy (trim text) = true /\ (String.length text <= maxLength)%nat
      /\ validateTextInput text maxLength = mkValidation true None).
Proof.
  unfold validateTextInput.
  destruct (truthy (trim text)); simpl; [|left; auto].
  right. destruct (Nat.ltb_spec maxLength (String.length text)); auto.
Qed.

(** What [handleAnalyze] does on a text that validation refuses: the
    error is shown and nothing is sent. *)
Lemma handleAnalyze_invalid st reply :
  isValid (validateTextInput (TextAnalysisDemo.st_text st) defaultMaxLength)
  = false ->
  snd (TextAnalysisDemo.handleAnalyze st reply) = []
  /\ TextAnalysisDemo.st_error (fst (TextAnalysisDemo.handleAnalyze st reply))
     = Utils.error
         (validateTextInput (TextAnalysisDemo.st_text st) defaultMaxLength)
  /\ TextAnalysisDemo.result (fst (TextAnalysisDemo.handleAnalyze st reply))
     = TextAnalysisDemo.result st.
Proof.
  intros H. unfold TextAnalysisDemo.handleAnalyze. rewrite H. simpl.
  repeat split.
  destruct (validateTextInput_cases (TextAnalysisDemo.st_text st)
              defaultMaxLength) as [[_ E] | [[_ [_ E]] | [_ [_ E]]]];
    rewrite E in *; simpl in *; [reflexivity | reflexivity | discriminate].
Qed.

(** On a text that validation accepts, one request is sent, with the
    trimmed text. *)
Lemma handleAnalyze_valid st reply :
  isValid (validateTextInput (TextAnalysisDemo.st_text st) defaultMaxLength)
  = true ->
  requests (snd (TextAnalysisDemo.handleAnalyze st reply))
  = [Post "/api/analyze"
       (AnalyzeBody (trim (TextAnalysisDemo.st_text st)) true)].
Proof.
  intros H. unfold TextAnalysisDemo.handleAnalyze. rewrite H. simpl.
  destruct reply as [response | message]; simpl; [|reflexivity].
  destruct (TextAnalysisDemo.isHighRisk (riskLevel response)); reflexivity.
Qed.

(** C4. [validateTextInput] accepts a text exactly when the text is not
    empty after trimming (it has a code unit that is not white space) and
    its length is at most the maximum, 500 by default; otherwise the
    result is invalid and carries an error message.  [handleAnalyze]
    validates first: on a refused text it sets the error and sends
    nothing, on an accepted one it sends the one analysis request. *)
Theorem validateTextInput_accepts_iff (text : string) (maxLength : nat) :
  let v := validateTextInput text maxLength in
  (isValid v = true
   <-> trim text <> EmptyString /\ (String.length text <= maxLength)%nat)
  /\ (trim text <> EmptyString
      <-> exists c, occurs c text /\ isWhiteSpace c = false)
  /\ (isValid v = true -> Utils.error v = None)
  /\ (isValid v = false ->
      exists msg, Utils.error v = Some msg /\ msg <> EmptyString)
  /\ defaultMaxLength = 500%nat
  /\ (forall st reply,
        TextAnalysisDemo.st_text st = text ->
        let out := TextAnalysisDemo.handleAnalyze st reply in
        if isValid (validateTextInput text defaultMaxLength)
        then requests (snd out)
             = [Post "/api/analyze" (AnalyzeBody (trim text) true)]
        else snd out = []
             /\ TextAnalysisDemo.st_error (fst out)
                = Utils.error (validateTextInput text defaultMaxLength)
             /\ TextAnalysisDemo.result (fst out)
                = TextAnalysisDemo.result st).
Proof.
  cbv zeta. repeat split.
  - destruct (validateTextInput_cases text maxLength)
      as [[T E] | [[T [L E]] | [T [L E]]]]; rewrite E in H; simpl in H;
      try discriminate.
    apply truthy_spec, T.
  - destruct (validateTextInput_cases text maxLength)
      as [[T E] | [[T [L E]] | [T [L E]]]]; rewrite E in H; simpl in H;
      try discriminate.
    exact L.
  - intros [T L]. apply truthy_spec in T.
    destruct (validateTextInput_cases text maxLength)
      as [[T' E] | [[T' [L' E]] | [T' [L' E]]]]; rewrite E; simpl;
      [congruence | lia | reflexivity].
  - intros H. apply truthy_trim, truthy_spec, H.
  - intros H. apply truthy_spec, truthy_trim, H.
  - destruct (validateTextInput_cases text maxLength)
      as [[T E] | [[T [L E]] | [T [L E]]]]; rewrite E; simpl;
      intros; [discriminate | discriminate | reflexivity].
  - destruct (validateTextInput_cases text maxLength)
      as [[T E] | [[T [L E]] | [T [L E]]]]; rewrite E; simpl; intros H;
      try discriminate; eexists; (split; [reflexivity | discriminate]).
  - intros st reply <-.
    destruct (isValid (validateTextInput (TextAnalysisDemo.st_text st)
                         defaultMaxLength)) eqn:V.
    + apply handleAnalyze_valid, V.
    + apply handleAnalyze_invalid, V.
Qed.

End InputValidation.

(* ================================================================== *)
(** * The verdict of [analyzeText] *)

Module Verdict.

Import JSString JSNumber Utils UtilsMore Effects JSFacts.
Import HarassmentDetectionDemo.
Local Open Scope string_scope.
Local Open Scope Q_scope.

(** A call whose text is not blank and whose request succeeds pushes
    the result built from the simulated scores. *)
Lemma analyzeText_success st d :
  truthy (trim (st_text st)) = true ->
  fst (analyzeText st (Responded true true) d)
  = mkState (st_text st) false
      (newResult (selectedPlatform st) (st_text st)
         (simulatedResult (st_text st) d) :: results st)
      (selectedPlatform st).
Proof.
  intros H. unfold analyzeText. rewrite H. reflexivity.
Qed.

(** C3, the counterexample.  The text holds both key words of the
    harassment axis and the first draw is 0.9: the harassment score is
    above the threshold 0.7 and the item is flagged, yet [is_toxic] is
    false.  So [is_toxic] is not the disjunction over the harassment and
    misogyny axes, nor the disjunction over all three scores. *)
Lemma is_toxic_ignores_harassment_axis :
  exists r,
    results (fst (analyzeText flaggedState (Responded true true) flaggedDraws))
    = [r]
    /\ threshold <= harassment_score (scores (result r))
    /\ isFlagged r = true
    /\ is_toxic (result r) = false
    /\ ~ (is_toxic (result r) = true
          <-> threshold <= harassment_score (scores (result r))
              \/ threshold <= misogyny_score (scores (result r)))
    /\ ~ (is_toxic (result r) = true
          <-> threshold <= harassment_score (scores (result r))
              \/ threshold <= misogyny_score (scores (result r))
              \/ threshold <= toxicity_score (scores (result r))).
Proof.
  eexists. split; [reflexivity|].
  assert (T : threshold <= 0.93) by (unfold Qle; simpl; lia).
  split; [exact T|]. split; [reflexivity|]. split; [reflexivity|].
  split; intros [_ H];
    (assert (F : false = true); [apply H; left; exact T | discriminate F]).
Qed.

(** C3, as the code has it.  In the result that [analyzeText] pushes,
    [is_toxic] is true exactly when the toxicity score is at least the
    threshold 0.7 that the three scores share, whatever the harassment
    and misogyny scores are; [is_harassment] is the same test on the
    harassment score; the flag that is true exactly when at least one
    of the three scores reaches the threshold is [isFlagged]. *)
Theorem is_toxic_iff_toxicity_axis (st : State) (d : Draws)
  (H : truthy (trim (st_text st)) = true) :
  exists r,
    results (fst (analyzeText st (Responded true true) d)) = r :: results st
    /\ scores (result r) = simulatedResult (st_text st) d
    /\ (is_toxic (result r) = true
        <-> threshold <= toxicity_score (scores (result r)))
    /\ (is_harassment (result r) = true
        <-> threshold <= harassment_score (scores (result r)))
    /\ (isFlagged r = true
        <-> threshold <= harassment_score (scores (result r))
            \/ threshold <= misogyny_score (scores (result r))
            \/ threshold <= toxicity_score (scores (result r))).
Proof.
  rewrite (analyzeText_success st d H). simpl.
  eexists. split; [reflexivity|]. simpl.
  split; [reflexivity|].
  split; [apply ge_spec|].
  split; [apply ge_spec|].
  rewrite !orb_true_iff, !ge_spec. tauto.
Qed.

Lemma is_toxic_iff_toxicity_axis_witness :
  exists r,
    results (fst (analyzeText flaggedState (Responded true true) flaggedDraws))
    = r :: results flaggedState
    /\ scores (result r) = simulatedResult (st_text flaggedState) flaggedDraws
    /\ (is_toxic (result r) = true
        <-> threshold <= toxicity_score (scores (result r)))
    /\ (is_harassment (result r) = true
        <-> threshold <= harassment_score (scores (result r)))
    /\ (isFlagged r = true
        <-> threshold <= harassment_score (scores (result r))
            \/ threshold <= misogyny_score (scores (result r))
            \/ threshold <= toxicity_score (scores (result r))).
Proof.
  apply (is_toxic_iff_toxicity_axis flaggedState flaggedDraws).
  reflexivity.
Defined.

(** [calculateOverallRisk] sees a confidence by its value only. *)
Lemma calculateOverallRisk_compat h m h' m' :
  h == h' -> m == m' ->
  level (calculateOverallRisk h m) = level (calculateOverallRisk h' m')
  /\ score (calculateOverallRisk h m) == score (calculateOverallRisk h' m').
Proof.
  intros Hh Hm.
  assert (E : Math_max h m == Math_max h' m')
    by (apply Math_max_compat; assumption).
  rewrite !ScoreAggregation.score_is_combined. split; [|exact E].
  unfold calculateOverallRisk.
  rewrite (lt_compat E (Qeq_refl 0.3)), (lt_compat E (Qeq_refl 0.6)),
          (lt_compat E (Qeq_refl 0.8)).
  destruct (lt (Math_max h' m') 0.3); [reflexivity|].
  destruct (lt (Math_max h' m') 0.6); [reflexivity|].
  destruct (lt (Math_max h' m') 0.8); reflexivity.
Qed.

Lemma ge_compat x x' y y' : (x == x' -> y == y' -> ge x y = ge x' y')%Q.
Proof. intros Hx Hy. unfold ge. apply Qleb_comp; assumption. Qed.

(** C8, the counterexample.  Two calls of [analyzeText] one after the
    other, on the same text, the same platform and the same reply of
    the server; the first draw of [Math.random] is 0.9 in the first call
    and 0.1 in the second.  The two results have the same text and
    different harassment scores; the first is flagged as harassment, the
    second is not. *)
Lemma analyze_twice_differs :
  let st1 :=
    fst (analyzeText flaggedState (Responded true true) flaggedDraws) in
  let st2 := fst (analyzeText st1 (Responded true true) calmDraws) in
  validDraws flaggedDraws /\ validDraws calmDraws
  /\ st_text st1 = st_text flaggedState
  /\ selectedPlatform st1 = selectedPlatform flaggedState
  /\ exists r1 r2,
       results st2 = [r2; r1]
       /\ text r1 = text r2 /\ platform r1 = platform r2
       /\ is_harassment (result r1) = true
       /\ is_harassment (result r2) = false
       /\ isFlagged r1 = true /\ isFlagged r2 = false
       /\ ~ (harassment_score (scores (result r1))
             == harassment_score (scores (result r2)))
       /\ r1 <> r2.
Proof.
  cbv zeta.
  split; [unfold validDraws, flaggedDraws; simpl; lra|].
  split; [unfold validDraws, calmDraws; simpl; lra|].
  split; [reflexivity|]. split; [reflexivity|].
  eexists. eexists. split; [reflexivity|].
  repeat (split; [reflexivity|]).
  split; [intros H; vm_compute in H; discriminate H|].
  intros H. apply (f_equal isFlagged) in H. discriminate H.
Qed.

(** C8, as the code has it.  Of two calls of [analyzeText] on the same
    text, the second run on the state the first one left, each pushes
    the result built from the scores of its own draws; the two results
    are identical exactly when the draws of the two calls give the same
    three scores, whatever the results that were there before.  Scores
    that are equal as numbers give equal [is_harassment], [is_toxic] and
    [isFlagged].  [calculateOverallRisk] gives equal confidences the
    same level and the same score. *)
Theorem analyze_twice_same_iff_same_scores (st : State) (d1 d2 : Draws)
  (H : truthy (trim (st_text st)) = true) :
  let st1 := fst (analyzeText st (Responded true true) d1) in
  let st2 := fst (analyzeText st1 (Responded true true) d2) in
  (exists r1 r2,
     results st1 = r1 :: results st
     /\ results st2 = r2 :: r1 :: results st
     /\ scores (result r1) = simulatedResult (st_text st) d1
     /\ scores (result r2) = simulatedResult (st_text st) d2
     /\ (r1 = r2
         <-> simulatedResult (st_text st) d1 = simulatedResult (st_text st) d2)
     /\ (harassment_score (scores (result r1))
         == harassment_score (scores (result r2)) ->
         misogyny_score (scores (result r1))
         == misogyny_score (scores (result r2)) ->
         toxicity_score (scores (result r1))
         == toxicity_score (scores (result r2)) ->
         is_harassment (result r1) = is_harassment (result r2)
         /\ is_toxic (result r1) = is_toxic (result r2)
         /\ isFlagged r1 = isFlagged r2))
  /\ (forall h m h' m' : Q,
        h == h' -> m == m' ->
        level (calculateOverallRisk h m) = level (calculateOverallRisk h' m')
        /\ score (calculateOverallRisk h m)
           == score (calculateOverallRisk h' m')).
Proof.
  cbv zeta. split; [|intros; apply calculateOverallRisk_compat; assumption].
  rewrite (analyzeText_success st d1 H).
  rewrite analyzeText_success by exact H. simpl.
  eexists. eexists. split; [reflexivity|]. split; [reflexivity|].
  split; [reflexivity|]. split; [reflexivity|]. split.
  - split.
    + intros E. apply (f_equal (fun r => scores (result r))) in E. exact E.
    + intros E. rewrite E. reflexivity.
  - simpl. intros Eh Em Et.
    rewrite (ge_compat Eh (Qeq_refl threshold)),
            (ge_compat Em (Qeq_refl threshold)),
            (ge_compat Et (Qeq_refl threshold)).
    repeat split.
Qed.

Lemma analyze_twice_same_iff_same_scores_witness :
  let st1 :=
    fst (analyzeText flaggedState (Responded true true) flaggedDraws) in
  let st2 := fst (analyzeText st1 (Responded true true) calmDraws) in
  exists r1 r2,
    results st1 = r1 :: results flaggedState
    /\ results st2 = r2 :: r1 :: results flaggedState
    /\ scores (result r1) = simulatedResult (st_text flaggedState) flaggedDraws
    /\ scores (result r2) = simulatedResult (st_text flaggedState) calmDraws
    /\ (r1 = r2
        <-> simulatedResult (st_text flaggedState) flaggedDraws
            = simulatedResult (st_text flaggedState) calmDraws)
    /\ (harassment_score (scores (result r1))
        == harassment_score (scores (result r2)) ->
        misogyny_score (scores (result r1))
        == misogyny_score (scores (result r2)) ->
        toxicity_score (scores (result r1))
        == toxicity_score (scores (result r2)) ->
        is_harassment (result r1) = is_harassment (result r2)
        /\ is_toxic (result r1) = is_toxic (result r2)
        /\ isFlagged r1 = isFlagged r2).
Proof.
  exact (proj1 (@analyze_twice_same_iff_same_scores
                  flaggedState flaggedDraws calmDraws eq_refl)).
Defined.

End Verdict.

(* ================================================================== *)
(** * The text boxes of the batch form *)

Module BatchInput.

Import JSString BatchAnalysisDemo.

Lemma filterFrom_length {A : Type} (f : A -> nat -> bool) (l : list A) :
  forall i, (List.length (filterFrom f i l) <= List.length l)%nat.
Proof.
  induction l as [|x l IH]; intros i; simpl; [lia|].
  destruct (f x i); simpl; specialize (IH (S i)); lia.
Qed.

(** Dropping one index drops at most one element. *)
Lemma filterFrom_drop_one (index : nat) (l : list string) :
  forall i,
    (List.length l
     <= S (List.length (filterFrom (fun _ j => negb (j =? index)) i l)))%nat.
Proof.
  induction l as [|x l IH]; intros i; simpl; [lia|].
  destruct (Nat.eqb_spec i index) as [E | N]; simpl.
  - assert (K : forall k l', (index < k)%nat ->
                filterFrom (fun (_ : string) j => negb (j =? index)) k l' = l').
    { intros k l'. revert k. induction l' as [|y l' IH']; intros k Hk; simpl.
      - reflexivity.
      - destruct (Nat.eqb_spec k index); [lia|]. simpl.
        rewrite IH' by lia. reflexivity. }
    rewrite K by lia. lia.
  - specialize (IH (S i)). lia.
Qed.

Lemma assign_length l index value :
  List.length (assign l index value) = List.length l.
Proof.
  revert index. induction l as [|x l IH]; intros [|i]; simpl; auto.
Qed.

Lemma addTextBox_bounds st : withinBounds st -> withinBounds (addTextBox st).
Proof.
  unfold withinBounds, addTextBox. intros H.
  destruct (Nat.ltb_spec (List.length (texts st)) 10); simpl; [|exact H].
  rewrite length_app. simpl. lia.
Qed.

Lemma removeTextBox_bounds st index :
  withinBounds st -> withinBounds (removeTextBox st index).
Proof.
  unfold withinBounds, removeTextBox. intros H.
  destruct (Nat.ltb_spec 1 (List.length (texts st))); simpl; [|exact H].
  unfold filterIndexed.
  pose proof (filterFrom_length (fun (_ : string) i => negb (i =? index))
                (texts st) 0).
  pose proof (filterFrom_drop_one index (texts st) 0).
  lia.
Qed.

Lemma updateText_bounds st index value st' :
  withinBounds st -> updateText st index value = Some st' -> withinBounds st'.
Proof.
  unfold withinBounds, updateText. intros H.
  destruct (index <? List.length (texts st)); [|discriminate].
  intros [= <-]. simpl. rewrite assign_length. exact H.
Qed.

Lemma handleBatchAnalysis_texts st reply :
  texts (fst (handleBatchAnalysis st reply)) = texts st.
Proof.
  unfold handleBatchAnalysis.
  destruct (List.length _ =? 0); [reflexivity|].
  destruct reply; reflexivity.
Qed.

Lemma handle_bounds st e st' :
  withinBounds st -> handle st e = Some st' -> withinBounds st'.
Proof.
  intros H. destruct e; simpl.
  - intros [= <-]. apply addTextBox_bounds, H.
  - intros [= <-]. apply removeTextBox_bounds, H.
  - apply updateText_bounds, H.
  - intros [= <-]. unfold withinBounds. simpl. lia.
  - intros [= <-]. unfold withinBounds. simpl. lia.
  - intros [= <-]. unfold withinBounds.
    rewrite handleBatchAnalysis_texts. exact H.
Qed.

(** C9. Every reachable state of the batch form has between 1 and 10 text
    boxes: the form starts with one, [addTextBox] does not go past 10,
    [removeTextBox] does not go below 1, [updateText] keeps the number,
    [clearAll] leaves one and [loadSampleData] five. *)
Theorem texts_length_invariant (st : State) (R : reachable st) :
  (1 <= List.length (texts st) <= 10)%nat
  /\ (List.length (texts (addTextBox st)) <= 10)%nat
  /\ (forall index, 1 <= List.length (texts (removeTextBox st index)))%nat
  /\ List.length (texts (clearAll st)) = 1%nat
  /\ List.length (texts (loadSampleData st)) = 5%nat.
Proof.
  assert (B : withinBounds st).
  { induction R as [|st e st' _ IH Hh].
    - unfold withinBounds. simpl. lia.
    - exact (handle_bounds e IH Hh). }
  split; [exact B|].
  split; [apply (addTextBox_bounds B)|].
  split; [intros index; apply (removeTextBox_bounds index B)|].
  split; reflexivity.
Qed.

Lemma texts_length_invariant_witness :
  (1 <= List.length (texts (addTextBox initialState)) <= 10)%nat.
Proof.
  refine (proj1 (@texts_length_invariant (addTextBox initialState) _)).
  apply (reach_handle (st := initialState) AddTextBox reach_initial).
  reflexivity.
Defined.

End BatchInput.

(* ================================================================== *)
(** * The exported file *)

Module ResultExport.

Import JSString JSNumber Utils Types JSFacts BatchAnalysisDemo.
Local Open Scope string_scope.

Section Collision.

Variable Number_toString : Q -> string.

(** The line of the forged item is the two lines of the plain items. *)
Lemma forged_line :
  csvLine Number_toString (exportRow (forgedItem Number_toString))
  = csvLine Number_toString (exportRow (plainItem "a"))
    ++ String newline EmptyString
    ++ csvLine Number_toString (exportRow (plainItem "b")).
Proof.
  unfold csvLine, forgedItem, forgedText, plainItem, exportRow, quoted.
  repeat (progress (repeat rewrite append_assoc; simpl)).
  reflexivity.
Qed.

End Collision.

(** C6, evaluated on the code.  An item whose text holds quotation marks
    and a line feed is exported as the very file of two other items: the
    marks of the text are written as they are.  The file of one item then
    has the rows of two, and no reader gets the results back from the
    file. *)
Theorem exportResults_collision (Number_toString : Q -> string) :
  exportResults Number_toString [forgedItem Number_toString]
  = exportResults Number_toString [plainItem "a"; plainItem "b"]
  /\ [forgedItem Number_toString] <> [plainItem "a"; plainItem "b"]
  /\ forall parse : option string -> list AnalyzeTextResponse,
       ~ (forall rs, parse (exportResults Number_toString rs) = rs).
Proof.
  assert (E : exportResults Number_toString [forgedItem Number_toString]
              = exportResults Number_toString [plainItem "a"; plainItem "b"]).
  { unfold exportResults. simpl map. cbn [List.length Nat.eqb join].
    rewrite forged_line. reflexivity. }
  split; [exact E|].
  split; [discriminate|].
  intros parse H.
  pose proof (H [forgedItem Number_toString]) as H1.
  pose proof (H [plainItem "a"; plainItem "b"]) as H2.
  rewrite E, H2 in H1. discriminate H1.
Qed.

End ResultExport.

(* ================================================================== *)
(** * Statistics of a job *)

Module JobStatistics.

Import JSString JSNumber Utils Types JSFacts FileUploadDemo.
Local Open Scope string_scope.
Local Open Scope Q_scope.

(** C5, evaluated on the code.  For a completed job with an empty list of
    results and no statistics, [getJobStats] divides zero by zero: the
    percentage it returns is the text NaN, not 0.0.  The sibling paths
    do guard the case: with statistics that carry no percentage the same
    function answers 0.0, and [getOverallStats] returns nothing on an
    empty list. *)
Theorem getJobStats_empty_results_NaN :
  option_map toxicPercentage (getJobStats emptyJobState) = Some "NaN"%string
  /\ mul (div (ofLength (@nil AnalyzeTextResponse))
              (ofLength (@nil AnalyzeTextResponse))) 100 = NaN
  /\ option_map toxicPercentage (getJobStats bareStatisticsState)
     = Some "0.0"%string
  /\ BatchAnalysisDemo.getOverallStats [] = None.
Proof.
  repeat split.
Qed.

End JobStatistics.

(* ================================================================== *)
(** * Choosing a file *)

Module FileSelection.

Import JSString JSNumber Utils Types JSFacts FileUploadDemo.
Local Open Scope string_scope.

(** A refused file sets an error and keeps the file chosen before; an
    accepted file is stored and the error is cleared. *)
Lemma handleFileSelect_outcome st f :
  let st' := handleFileSelect st (Some f) in
  (accepted f = false ->
     file st' = file st /\ exists msg, st_error st' = Some msg)
  /\ (accepted f = true -> file st' = Some f /\ st_error st' = None).
Proof.
  cbv zeta. unfold accepted, handleFileSelect.
  destruct (arrayIncludes allowedTypes (fileExtension f)); simpl.
  - destruct (N.ltb_spec maxFileSize (size f)) as [L | L]; simpl.
    + split; [intros _; split; [reflexivity | eexists; reflexivity]|].
      intros H. apply N.leb_le in H. lia.
    + split; [|intros _; split; reflexivity].
      intros H. apply N.leb_gt in H. lia.
  - split; [intros _; split; [reflexivity | eexists; reflexivity]|].
    discriminate.
Qed.

(** C10, evaluated on the code.  A file named csv, with no dot in its
    name and so no extension, passes the test of the file type: the name
    itself is taken for the extension.  The file is stored and the error
    is cleared.  The limit on the size is 10 * 1024 * 1024 bytes. *)
Theorem handleFileSelect_accepts_name_without_extension :
  includes (name extensionlessFile) "." = false
  /\ fileExtension extensionlessFile = ".csv"
  /\ file (handleFileSelect noFile (Some extensionlessFile))
     = Some extensionlessFile
  /\ st_error (handleFileSelect noFile (Some extensionlessFile)) = None
  /\ maxFileSize = 10485760%N.
Proof.
  repeat split.
Qed.

End FileSelection.

(* ================================================================== *)
(** * Polling the status of a job *)

Module Polling.

Import JSString Types Effects FileUploadDemo.
Local Open Scope string_scope.

Lemma pollRun_cons jobId p e es :
  pollRun jobId p (e :: es)
  = (fst (pollRun jobId (fst (pollStep jobId p e)) es),
     (snd (pollStep jobId p e)
      ++ snd (pollRun jobId (fst (pollStep jobId p e)) es))%list).
Proof.
  simpl. destruct (pollStep jobId p e) as [p1 out1].
  simpl. destruct (pollRun jobId p1 es) as [p2 out2]. reflexivity.
Qed.

Lemma requests_app (a b : list Effect) :
  requests (a ++ b) = (requests a ++ requests b)%list.
Proof. unfold requests. apply filter_app. Qed.

(** Once the interval is cleared, a turn sends nothing and the interval
    stays cleared. *)
Lemma pollStep_cleared jobId p e :
  intervalActive p = false ->
  intervalActive (fst (pollStep jobId p e)) = false
  /\ requests (snd (pollStep jobId p e)) = [].
Proof.
  intros H. destruct e as [|j|]; simpl.
  - rewrite H. auto.
  - destruct (pending p); [auto|].
    destruct (isTerminal (status j)); simpl; auto.
  - destruct (pending p); simpl; auto.
Qed.

Lemma pollRun_cleared jobId es :
  forall p, intervalActive p = false ->
    intervalActive (fst (pollRun jobId p es)) = false
    /\ requests (snd (pollRun jobId p es)) = [].
Proof.
  induction es as [|e es IH]; intros p H; [simpl; auto|].
  rewrite pollRun_cons. simpl.
  destruct (@pollStep_cleared jobId p e H) as [A B].
  destruct (IH _ A) as [C D].
  rewrite requests_app, B, D. auto.
Qed.

(** A pending request that brings a terminal status, or throws, clears
    the interval. *)
Lemma pollStep_stops jobId p e :
  (0 < pending p)%nat ->
  isTerminalReply e = true \/ e = Failure ->
  intervalActive (fst (pollStep jobId p e)) = false
  /\ isPolling (component (fst (pollStep jobId p e))) = false.
Proof.
  intros Hp [He | ->]; destruct (pending p) eqn:E; try lia.
  - destruct e as [|j|]; simpl in *; try discriminate.
    rewrite E, He. simpl. auto.
  - simpl. rewrite E. simpl. auto.
Qed.

(** Until then every tick sends one request for the status of the job. *)
Lemma pollRun_active jobId es :
  forall p, intervalActive p = true ->
    existsb isTerminalReply es = false -> existsb isFailure es = false ->
    intervalActive (fst (pollRun jobId p es)) = true
    /\ requests (snd (pollRun jobId p es))
       = repeat (Get ("/api/jobs/" ++ jobId)) (countTicks es).
Proof.
  induction es as [|e es IH]; intros p H HT HF; [simpl; auto|].
  simpl in HT, HF. apply orb_false_iff in HT, HF.
  destruct HT as [HT1 HT2], HF as [HF1 HF2].
  rewrite pollRun_cons. simpl fst. simpl snd. rewrite requests_app.
  assert (S : intervalActive (fst (pollStep jobId p e)) = true
              /\ requests (snd (pollStep jobId p e))
                 = repeat (Get ("/api/jobs/" ++ jobId))
                     (if isTick e then 1 else 0)).
  { destruct e as [|j|]; simpl in *; try discriminate.
    - rewrite H. auto.
    - destruct (pending p); [auto|]. rewrite HT1. simpl. auto. }
  destruct S as [A B]. destruct (IH _ A HT2 HF2) as [C D].
  split; [exact C|]. rewrite B, D. unfold countTicks. simpl.
  destruct (isTick e); reflexivity.
Qed.

(** C7, the counterexample.  A request throws while the job is still
    processing: no terminal status was ever observed, the interval is
    cleared all the same, and the tick that follows sends nothing. *)
Lemma polling_stops_without_terminal_status :
  existsb isTerminalReply [Tick; Failure; Tick] = false
  /\ option_map status
       (jobStatus (component (after "job-1" uploaded [Tick; Failure; Tick])))
     = Some processing
  /\ sent "job-1" (startPolling uploaded) [Tick; Failure; Tick]
     = [Get "/api/jobs/job-1"]
  /\ ~ (intervalActive (after "job-1" uploaded [Tick; Failure; Tick]) = false
        <-> existsb isTerminalReply [Tick; Failure; Tick] = true).
Proof.
  repeat split. intros [H _]. specialize (H eq_refl). discriminate H.
Qed.

(** C7, as the code has it.  The interval is 2000 ms.  As long as no
    reply with a terminal status (completed or failed) has come and no
    request has thrown, the interval is active and every tick sends one
    GET for the status of the job.  When a pending request brings a
    terminal status or throws, the interval is cleared and [isPolling]
    is reset at once, and whatever happens afterwards no status request
    is sent again. *)
Theorem polling_until_terminal_or_failure (jobId : string) (st : State) :
  pollInterval = 2000
  /\ (forall es,
        existsb isTerminalReply es = false ->
        existsb isFailure es = false ->
        intervalActive (after jobId st es) = true
        /\ sent jobId (startPolling st) es
           = repeat (Get ("/api/jobs/" ++ jobId)) (countTicks es))
  /\ (forall es1 e es2,
        (0 < pending (after jobId st es1))%nat ->
        isTerminalReply e = true \/ e = Failure ->
        let p := fst (pollStep jobId (after jobId st es1) e) in
        intervalActive p = false
        /\ isPolling (component p) = false
        /\ sent jobId p es2 = []
        /\ intervalActive (fst (pollRun jobId p es2)) = false).
Proof.
  split; [reflexivity|]. split.
  - intros es HT HF. unfold after, sent.
    apply pollRun_active; [reflexivity | exact HT | exact HF].
  - intros es1 e es2 Hp He. cbv zeta.
    destruct (@pollStep_stops jobId _ e Hp He) as [A B].
    destruct (@pollRun_cleared jobId es2 _ A) as [C D].
    unfold sent. auto.
Qed.

Lemma polling_until_terminal_or_failure_witness :
  let p := fst (pollStep "job-1" (after "job-1" uploaded [Tick; Tick])
                  (Reply emptyJob)) in
  intervalActive p = false
  /\ isPolling (component p) = false
  /\ sent "job-1" p [Tick; Reply emptyJob; Tick] = []
  /\ intervalActive (fst (pollRun "job-1" p [Tick; Reply emptyJob; Tick]))
     = false.
Proof.
  refine (proj2 (proj2 (polling_until_terminal_or_failure "job-1" uploaded))
            [Tick; Tick] (Reply emptyJob) [Tick; Reply emptyJob; Tick] _ _).
  - simpl. lia.
  - left. reflexivity.
Defined.

End Polling.

(* ================================================================== *)
(** * More on the scores and the helpers of lib/utils.ts *)

Module ScoreFacts.

Import JSString JSNumber Utils UtilsMore JSFacts.
Local Open Scope Q_scope.

Lemma Math_max_mono h m h' m' :
  h <= h' -> m <= m' -> Math_max h m <= Math_max h' m'.
Proof.
  intros Hh Hm. rewrite !Math_max_is_Qmax.
  apply Q.max_le_compat; assumption.
Qed.

Lemma Math_max_comm h m : Math_max h m == Math_max m h.
Proof. rewrite !Math_max_is_Qmax. apply Q.max_comm. Qed.

(** The level is decided by the value of the combined score. *)
Lemma level_of_combined h m h' m' :
  Math_max h m == Math_max h' m' ->
  level (calculateOverallRisk h m) = level (calculateOverallRisk h' m').
Proof.
  intros E. unfold calculateOverallRisk.
  rewrite (lt_compat E (Qeq_refl 0.3)), (lt_compat E (Qeq_refl 0.6)),
          (lt_compat E (Qeq_refl 0.8)).
  destruct (lt (Math_max h' m') 0.3); [reflexivity|].
  destruct (lt (Math_max h' m') 0.6); [reflexivity|].
  destruct (lt (Math_max h' m') 0.8); reflexivity.
Qed.

(** X1. [calculateOverallRisk] does not care which axis a confidence
    comes from, and a higher confidence on either axis never gives a
    milder level or a lower score. *)
Theorem risk_symmetric_and_monotone (h m h' m' : Q) :
  level (calculateOverallRisk h m) = level (calculateOverallRisk m h)
  /\ score (calculateOverallRisk h m) == score (calculateOverallRisk m h)
  /\ (h <= h' -> m <= m' ->
      (rank (level (calculateOverallRisk h m))
       <= rank (level (calculateOverallRisk h' m')))%nat
      /\ score (calculateOverallRisk h m)
         <= score (calculateOverallRisk h' m')).
Proof.
  split; [apply level_of_combined, Math_max_comm|].
  split; [rewrite !ScoreAggregation.score_is_combined; apply Math_max_comm|].
  intros Hh Hm. pose proof (Math_max_mono Hh Hm) as M.
  rewrite !ScoreAggregation.score_is_combined. split; [|exact M].
  destruct (ScoreAggregation.level_by_cases h m)
    as [[A L] | [[A [B L]] | [[A [B L]] | [A L]]]];
  destruct (ScoreAggregation.level_by_cases h' m')
    as [[A' L'] | [[A' [B' L']] | [[A' [B' L']] | [A' L']]]];
  rewrite L, L'; simpl; try lia; exfalso; lra.
Qed.

(** X2. The level of [calculateOverallRisk] is the one that the table
    [ANALYSIS_CONFIG.RISK_LEVELS] gives the combined score: the first
    level whose threshold is above the score, critical when none is. *)
Theorem risk_level_agrees_with_config (h m : Q) :
  level (calculateOverallRisk h m) = levelFromTable RISK_LEVELS (Math_max h m).
Proof.
  unfold calculateOverallRisk, levelFromTable, RISK_LEVELS. simpl.
  destruct (lt (Math_max h m) 0.3); [reflexivity|].
  destruct (lt (Math_max h m) 0.6); [reflexivity|].
  destruct (lt (Math_max h m) 0.8); [reflexivity|].
  destruct (lt (Math_max h m) 1.0); reflexivity.
Qed.

End ScoreFacts.

(* ================================================================== *)
(** * [truncateText] *)

Module Truncation.

Import JSString JSNumber Utils UtilsMore JSFacts.
Local Open Scope string_scope.

Lemma length_append (a b : string) :
  String.length (a ++ b) = (String.length a + String.length b)%nat.
Proof. induction a as [|c a IH]; simpl; [reflexivity | rewrite IH; reflexivity]. Qed.

Lemma length_substring0 (n : nat) (s : string) :
  String.length (substring 0 n s) = Nat.min n (String.length s).
Proof.
  revert s. induction n as [|n IH]; intros [|c s]; simpl; try reflexivity.
  rewrite IH. reflexivity.
Qed.

Lemma length_trimStart s : (String.length (trimStart s) <= String.length s)%nat.
Proof.
  induction s as [|c s IH]; simpl; [lia|].
  destruct (isWhiteSpace c); simpl; lia.
Qed.

Lemma length_trimEnd s : (String.length (trimEnd s) <= String.length s)%nat.
Proof.
  induction s as [|c s IH]; simpl; [lia|].
  destruct (trimEnd s) as [|c' t]; simpl in *.
  - destruct (isWhiteSpace c); simpl; lia.
  - lia.
Qed.

Lemma length_trim s : (String.length (trim s) <= String.length s)%nat.
Proof.
  unfold trim. pose proof (length_trimEnd (trimStart s)).
  pose proof (length_trimStart s). lia.
Qed.

(** X3. [truncateText] returns a text of at most [maxLength] code units
    as it is; a longer text becomes the trimmed first [maxLength] code
    units followed by three dots, so the result never has more than
    [maxLength + 3] code units. *)
Theorem truncateText_bounds (text : string) (maxLength : nat) :
  ((String.length text <= maxLength)%nat -> truncateText text maxLength = text)
  /\ ((maxLength < String.length text)%nat ->
      exists body,
        truncateText text maxLength = body ++ "..."
        /\ body = trim (substring 0 maxLength text)
        /\ (String.length body <= maxLength)%nat)
  /\ (String.length (truncateText text maxLength) <= maxLength + 3)%nat.
Proof.
  unfold truncateText.
  destruct (Nat.leb_spec (String.length text) maxLength) as [L | L].
  - split; [reflexivity|]. split; [lia|]. lia.
  - assert (B : (String.length (trim (substring 0 maxLength text))
                 <= maxLength)%nat).
    { pose proof (length_trim (substring 0 maxLength text)) as T.
      rewrite length_substring0 in T. lia. }
    split; [lia|]. split.
    + intros _. eexists. split; [reflexivity|]. split; [reflexivity | exact B].
    + rewrite length_append. simpl. lia.
Qed.

End Truncation.

(* ================================================================== *)
(** * What [analyzeText] and [handleAnalyze] can and cannot report *)

Module VerdictRange.

Import JSString JSNumber Utils UtilsMore Types Effects JSFacts.
Import HarassmentDetectionDemo.
Local Open Scope string_scope.
Local Open Scope Q_scope.

Lemma Math_min_one x : Math_min x 1 <= 1 /\ Math_min x 1 <= x
                       /\ (x <= 1 -> Math_min x 1 = x).
Proof.
  unfold Math_min. destruct (lt 1 x) eqn:E.
  - apply lt_spec in E. repeat split; try lra.
  - apply lt_false in E. repeat split; try lra.
Qed.

(** X4. With draws that [Math.random] can return, the three simulated
    scores are confidences, the misogyny score stays below 0.6 and the
    toxicity score below 0.5.  So [is_toxic] is false for every text and
    an item is flagged exactly when [is_harassment] is true; that needs
    the key word hate in the text, and without the other key word of
    the harassment axis the score does not go beyond the threshold. *)
Theorem simulated_scores_range (platform text : string) (d : Draws)
  (V : validDraws d) :
  let s := simulatedResult text d in
  let r := newResult platform text s in
  inUnit (harassment_score s) /\ inUnit (misogyny_score s)
  /\ inUnit (toxicity_score s)
  /\ misogyny_score s < 0.6 /\ toxicity_score s < 0.5
  /\ is_toxic (result r) = false
  /\ isFlagged r = is_harassment (result r)
  /\ (is_harassment (result r) = true ->
      includes (toLowerCase text) "hate" = true)
  /\ (includes (toLowerCase text) "bitch" = false ->
      harassment_score s <= threshold).
Proof.
  destruct V as [[H0 H1] [[M0 M1] [T0 T1]]]. cbv zeta.
  unfold newResult, simulatedResult. simpl. unfold inUnit, threshold.
  set (h := draw_harassment d
            * (if includes (toLowerCase text) "bitch" then 0.7 else 0.4)
            + (if includes (toLowerCase text) "hate" then 0.3 else 0)).
  set (m := draw_misogyny d
            * (if includes (toLowerCase text) "woman"
                  || includes (toLowerCase text) "girl" then 0.6 else 0.2)).
  set (t := draw_toxicity d
            * (if includes (toLowerCase text) "stupid"
                  || includes (toLowerCase text) "idiot" then 0.5 else 0.3)).
  assert (Hh : 0 <= h /\ (h < 0.7 \/ includes (toLowerCase text) "hate" = true)
               /\ (includes (toLowerCase text) "bitch" = false -> h <= 0.7)).
  { subst h. destruct (includes (toLowerCase text) "bitch"),
               (includes (toLowerCase text) "hate");
      (split; [lra|]); (split; [try (left; lra); right; reflexivity|]);
      intros K; try discriminate K; lra. }
  assert (Hm : 0 <= m < 0.6).
  { subst m. destruct (includes (toLowerCase text) "woman"
                       || includes (toLowerCase text) "girl"); lra. }
  assert (Ht : 0 <= t < 0.5).
  { subst t. destruct (includes (toLowerCase text) "stupid"
                       || includes (toLowerCase text) "idiot"); lra. }
  destruct (Math_min_one h) as [h1 [h2 h3]].
  destruct (Math_min_one m) as [m1 [m2 m3]].
  destruct (Math_min_one t) as [t1 [t2 t3]].
  rewrite (m3 ltac:(lra)), (t3 ltac:(lra)) in *.
  assert (Gm : ge m 0.7 = false).
  { destruct (ge m 0.7) eqn:E; [|reflexivity]. apply ge_spec in E. lra. }
  assert (Gt : ge t 0.7 = false).
  { destruct (ge t 0.7) eqn:E; [|reflexivity]. apply ge_spec in E. lra. }
  rewrite Gm, Gt, !orb_false_r.
  assert (Hb : ge (Math_min h 1) 0.7 = true ->
               includes (toLowerCase text) "hate" = true).
  { intros G. apply ge_spec in G.
    destruct Hh as [_ [[K | K] _]]; [lra | exact K]. }
  split; [split; [unfold Math_min; destruct (lt 1 h); lra | exact h1]|].
  split; [split; lra|]. split; [split; lra|].
  split; [lra|]. split; [lra|].
  split; [reflexivity|]. split; [reflexivity|]. split; [exact Hb|].
  intros K. destruct Hh as [_ [_ L]]. specialize (L K). lra.
Qed.

Lemma simulated_scores_range_witness :
  is_toxic (result (newResult "twitter" "hate, bitch"
                      (simulatedResult "hate, bitch" flaggedDraws))) = false.
Proof.
  refine (proj1 (proj2 (proj2 (proj2 (proj2 (proj2
            (@simulated_scores_range "twitter" "hate, bitch" flaggedDraws _))))))).
  unfold validDraws, flaggedDraws. simpl. lra.
Defined.

(** X5. After [handleAnalyze] on a text that validation accepts, the
    component is no longer analysing, its text is untouched, and exactly
    one of the result and the error is set: the result after a reply,
    the error after a failure. *)
Theorem handleAnalyze_result_or_error (st : TextAnalysisDemo.State)
  (reply : TextAnalysisDemo.ApiOutcome)
  (V : isValid (validateTextInput (TextAnalysisDemo.st_text st)
                  defaultMaxLength) = true) :
  let st' := fst (TextAnalysisDemo.handleAnalyze st reply) in
  TextAnalysisDemo.isAnalyzing st' = false
  /\ TextAnalysisDemo.st_text st' = TextAnalysisDemo.st_text st
  /\ (TextAnalysisDemo.result st' = None
      <-> TextAnalysisDemo.st_error st' <> None)
  /\ (forall response, reply = TextAnalysisDemo.Resolved response ->
        TextAnalysisDemo.result st' = Some response)
  /\ (forall message, reply = TextAnalysisDemo.Rejected message ->
        exists e, TextAnalysisDemo.st_error st' = Some e
                  /\ e <> EmptyString).
Proof.
  cbv zeta. unfold TextAnalysisDemo.handleAnalyze. rewrite V. simpl.
  destruct reply as [response | message]; simpl.
  - split; [reflexivity|]. split; [reflexivity|].
    split; [split; [discriminate | congruence]|].
    split; [intros r [= <-]; reflexivity | discriminate].
  - split; [reflexivity|]. split; [reflexivity|].
    split; [split; [discriminate | reflexivity]|].
    split; [discriminate|].
    intros m _. eexists. split; [reflexivity|].
    unfold orElse. destruct message as [[|c e]|]; simpl; discriminate.
Qed.

Lemma handleAnalyze_result_or_error_witness :
  TextAnalysisDemo.isAnalyzing
    (fst (TextAnalysisDemo.handleAnalyze
            (TextAnalysisDemo.mkState "hello" true None None)
            (TextAnalysisDemo.Rejected None))) = false.
Proof.
  refine (proj1 (@handleAnalyze_result_or_error
                   (TextAnalysisDemo.mkState "hello" true None None)
                   (TextAnalysisDemo.Rejected None) _)).
  reflexivity.
Defined.

End VerdictRange.

(* ================================================================== *)
(** * The handlers of the batch form *)

Module BatchForm.

Import JSString JSNumber Utils Types Effects JSFacts BatchAnalysisDemo.
Local Open Scope string_scope.

Lemma filterFrom_past (index : nat) (l : list string) :
  forall i, (index < i)%nat ->
    filterFrom (fun _ j => negb (j =? index)%nat) i l = l.
Proof.
  induction l as [|x l IH]; intros i Hi; simpl; [reflexivity|].
  destruct (Nat.eqb_spec i index); [lia|]. simpl.
  rewrite IH by lia. reflexivity.
Qed.

Lemma filterFrom_removes (index : nat) (l : list string) :
  forall i, (i <= index)%nat ->
    filterFrom (fun _ j => negb (j =? index)%nat) i l
    = (firstn (index - i) l ++ skipn (S (index - i)) l)%list.
Proof.
  induction l as [|x l IH]; intros i Hi; simpl.
  - rewrite firstn_nil. reflexivity.
  - destruct (Nat.eqb_spec i index) as [E | N]; simpl.
    + subst i. rewrite Nat.sub_diag. simpl.
      apply filterFrom_past. lia.
    + rewrite IH by lia.
      replace (index - i)%nat with (S (index - S i)) by lia.
      reflexivity.
Qed.

(** X6. [removeTextBox(index)] leaves a form with a single box as it is;
    otherwise it takes out the box at [index] and keeps the others in
    their order, and an index past the last box takes out nothing. *)
Theorem removeTextBox_removes_index (st : State) (index : nat) :
  ((List.length (texts st) <= 1)%nat -> removeTextBox st index = st)
  /\ ((1 < List.length (texts st))%nat ->
      texts (removeTextBox st index)
      = (firstn index (texts st) ++ skipn (S index) (texts st))%list
      /\ st_results (removeTextBox st index) = st_results st
      /\ st_error (removeTextBox st index) = st_error st)
  /\ ((1 < List.length (texts st))%nat ->
      (index < List.length (texts st))%nat ->
      List.length (texts (removeTextBox st index))
      = (List.length (texts st) - 1)%nat)
  /\ ((List.length (texts st) <= index)%nat ->
      texts (removeTextBox st index) = texts st).
Proof.
  assert (R : (1 < List.length (texts st))%nat ->
              texts (removeTextBox st index)
              = (firstn index (texts st) ++ skipn (S index) (texts st))%list).
  { intros L. unfold removeTextBox.
    destruct (Nat.ltb_spec 1 (List.length (texts st))); [|lia]. simpl.
    unfold filterIndexed. rewrite filterFrom_removes by lia.
    rewrite Nat.sub_0_r. reflexivity. }
  split; [|split; [|split]].
  - intros L. unfold removeTextBox.
    destruct (Nat.ltb_spec 1 (List.length (texts st))); [lia | reflexivity].
  - intros L. split; [exact (R L)|]. unfold removeTextBox.
    destruct (Nat.ltb_spec 1 (List.length (texts st))); [|lia].
    split; reflexivity.
  - intros L I. rewrite (R L), length_app, length_firstn, length_skipn. lia.
  - intros I.
    destruct (Nat.le_gt_cases (List.length (texts st)) 1) as [L | L].
    + unfold removeTextBox.
      destruct (Nat.ltb_spec 1 (List.length (texts st))); [lia | reflexivity].
    + rewrite (R L), firstn_all2 by lia.
      rewrite skipn_all2 by lia. apply app_nil_r.
Qed.

Lemma assign_same l index value :
  (index < List.length l)%nat ->
  nth_error (assign l index value) index = Some value.
Proof.
  revert index. induction l as [|x l IH]; intros [|i] H; simpl in *;
    try lia; [reflexivity|]. apply IH. lia.
Qed.

Lemma assign_other l index value j :
  j <> index -> nth_error (assign l index value) j = nth_error l j.
Proof.
  revert index j. induction l as [|x l IH]; intros [|i] [|j] H; simpl;
    try reflexivity; try congruence. apply IH. congruence.
Qed.

(** X7. [updateText(index, value)] on a box of the form writes [value]
    into that box and into no other; the number of boxes, the results
    and the error stay. *)
Theorem updateText_sets_one_box (st : State) (index : nat) (value : string)
  (I : (index < List.length (texts st))%nat) :
  exists st',
    updateText st index value = Some st'
    /\ nth_error (texts st') index = Some value
    /\ (forall j, j <> index ->
          nth_error (texts st') j = nth_error (texts st) j)
    /\ List.length (texts st') = List.length (texts st)
    /\ st_results st' = st_results st /\ st_error st' = st_error st.
Proof.
  unfold updateText. destruct (Nat.ltb_spec index (List.length (texts st)));
    [|lia].
  eexists. split; [reflexivity|]. simpl.
  split; [apply assign_same, I|].
  split; [intros j Hj; apply assign_other, Hj|].
  split; [apply BatchInput.assign_length|]. split; reflexivity.
Qed.

Lemma updateText_sets_one_box_witness :
  exists st',
    updateText initialState 0 "hello" = Some st'
    /\ nth_error (texts st') 0 = Some "hello"
    /\ (forall j, j <> 0%nat ->
          nth_error (texts st') j = nth_error (texts initialState) j)
    /\ List.length (texts st') = List.length (texts initialState)
    /\ st_results st' = st_results initialState
    /\ st_error st' = st_error initialState.
Proof.
  apply (@updateText_sets_one_box initialState 0 "hello"). simpl. lia.
Defined.

(** X8. Below ten boxes [addTextBox] appends one empty box and keeps the
    others, and removing that last box gives the texts back; at ten
    boxes [addTextBox] changes nothing. *)
Theorem addTextBox_then_remove (st : State) :
  ((List.length (texts st) < 10)%nat ->
     texts (addTextBox st) = (texts st ++ [EmptyString])%list
     /\ ((1 <= List.length (texts st))%nat ->
         texts (removeTextBox (addTextBox st) (List.length (texts st)))
         = texts st))
  /\ ((10 <= List.length (texts st))%nat -> addTextBox st = st).
Proof.
  split.
  - intros L.
    assert (A : texts (addTextBox st) = (texts st ++ [EmptyString])%list).
    { unfold addTextBox.
      destruct (Nat.ltb_spec (List.length (texts st)) 10); [reflexivity | lia]. }
    split; [exact A|]. intros L1.
    destruct (removeTextBox_removes_index (addTextBox st)
                (List.length (texts st))) as [_ [R _]].
    destruct R as [R _]; [rewrite A, length_app; simpl; lia|].
    rewrite R, A.
    rewrite (skipn_all2 (n := S (List.length (texts st))))
      by (rewrite length_app; simpl; lia).
    rewrite firstn_app, Nat.sub_diag, firstn_all. simpl.
    rewrite !app_nil_r. reflexivity.
  - intros L. unfold addTextBox.
    destruct (Nat.ltb_spec (List.length (texts st)) 10); [lia | reflexivity].
Qed.

(** A text counts for the batch when it has a code unit that is not
    white space. *)
Lemma nonblank_spec t :
  (0 <? String.length (trim t))%nat = true
  <-> exists c, occurs c t /\ isWhiteSpace c = false.
Proof.
  rewrite <- truthy_trim.
  destruct (trim t); simpl; split; intros H; try exact H;
    try reflexivity; try discriminate H.
Qed.

(** X9. [handleBatchAnalysis] never changes the texts of the form.  When
    every text is blank it sends nothing and sets the error; otherwise
    it sends one batch request with the texts that are not blank, in
    their order and untrimmed, and ends with [isAnalyzing] false. *)
Theorem handleBatchAnalysis_request (st : State) (reply : ApiOutcome) :
  let out := handleBatchAnalysis st reply in
  let validTexts :=
    filter (fun t => (0 <? String.length (trim t))%nat) (texts st) in
  texts (fst out) = texts st
  /\ Forall (fun t => exists c, occurs c t /\ isWhiteSpace c = false)
       validTexts
  /\ (validTexts = [] ->
      snd out = []
      /\ st_error (fst out) = Some "Please enter at least one text to analyze"
      /\ st_results (fst out) = st_results st)
  /\ (validTexts <> [] ->
      requests (snd out)
      = [Post "/api/analyze/batch" (BatchBody validTexts true)]
      /\ isAnalyzing (fst out) = false).
Proof.
  cbv zeta. split; [apply BatchInput.handleBatchAnalysis_texts|].
  split.
  { apply Forall_forall. intros t Ht. apply filter_In in Ht.
    apply nonblank_spec, Ht. }
  unfold handleBatchAnalysis.
  destruct (filter (fun t => (0 <? String.length (trim t))%nat) (texts st))
    as [|t ts] eqn:E; simpl.
  - split; [auto | congruence].
  - split; [discriminate|]. intros _.
    destruct reply as [rs | message]; simpl; [|auto].
    destruct (0 <? List.length (filter isHighRisk rs))%nat; auto.
Qed.

(** X10. After a reply, the toast of [handleBatchAnalysis] is the
    destructive one exactly when some result has the level high or
    critical; the results of the reply become the results of the form. *)
Theorem handleBatchAnalysis_toast (st : State) (rs : list AnalyzeTextResponse)
  (N : filter (fun t => (0 <? String.length (trim t))%nat) (texts st) <> []) :
  let out := handleBatchAnalysis st (Resolved rs) in
  st_results (fst out) = rs
  /\ st_error (fst out) = None
  /\ exists request toast,
       snd out = [request; ShowToast toast]
       /\ (destructive toast = true
           <-> exists r, In r rs
                         /\ (riskLevel r = high \/ riskLevel r = critical)).
Proof.
  cbv zeta. unfold handleBatchAnalysis.
  destruct (filter (fun t => (0 <? String.length (trim t))%nat) (texts st))
    as [|t ts]; [congruence|]. simpl.
  split; [reflexivity|]. split; [reflexivity|].
  eexists. eexists. split; [reflexivity|].
  assert (K : (0 <? List.length (filter isHighRisk rs))%nat = true
              <-> exists r, In r rs
                            /\ (riskLevel r = high \/ riskLevel r = critical)).
  { split.
    - intros H. apply Nat.ltb_lt in H.
      destruct (filter isHighRisk rs) as [|r l] eqn:F; [simpl in H; lia|].
      assert (I : In r (filter isHighRisk rs)) by (rewrite F; left; reflexivity).
      apply filter_In in I. destruct I as [I1 I2]. exists r. split; [exact I1|].
      unfold isHighRisk in I2. destruct (riskLevel r); auto; discriminate.
    - intros [r [I1 I2]]. apply Nat.ltb_lt.
      assert (I : In r (filter isHighRisk rs)).
      { apply filter_In. split; [exact I1|]. unfold isHighRisk.
        destruct I2 as [-> | ->]; reflexivity. }
      destruct (filter isHighRisk rs); [destruct I | simpl; lia]. }
  rewrite <- K.
  destruct (0 <? List.length (filter isHighRisk rs))%nat; simpl;
    split; congruence.
Qed.

Lemma handleBatchAnalysis_toast_witness :
  st_results (fst (handleBatchAnalysis (loadSampleData initialState)
                     (Resolved [plainItem "a"])))
  = [plainItem "a"].
Proof.
  refine (proj1 (@handleBatchAnalysis_toast (loadSampleData initialState)
                   [plainItem "a"] _)).
  discriminate.
Defined.

(** X11. [getOverallStats] gives nothing for an empty list of results;
    otherwise the total is the number of results, the toxic count is the
    number of results with [is_toxic], and toxic and safe add up to the
    total. *)
Theorem getOverallStats_counts (rs : list AnalyzeTextResponse) :
  (rs = [] -> getOverallStats rs = None)
  /\ (rs <> [] ->
      exists stats,
        getOverallStats rs = Some stats
        /\ total stats = List.length rs
        /\ toxic stats = List.length (filter is_toxic rs)
        /\ (toxic stats + safe stats = total stats)%nat).
Proof.
  split; [intros ->; reflexivity|].
  intros N. unfold getOverallStats.
  destruct rs as [|r rs]; [congruence|].
  cbn [List.length Nat.eqb]. eexists. split; [reflexivity|].
  cbn [total toxic safe]. split; [reflexivity|]. split; [reflexivity|].
  pose proof (filter_length_le is_toxic (r :: rs)) as F.
  cbn [List.length] in F. lia.
Qed.

Lemma append_quote_inj (t1 t2 a b : string) :
  ~ occurs dquote t1 -> ~ occurs dquote t2 ->
  t1 ++ String dquote a = t2 ++ String dquote b -> t1 = t2.
Proof.
  revert t2. induction t1 as [|c t1 IH]; intros [|c2 t2] H1 H2 E; simpl in *.
  - reflexivity.
  - injection E as E1 _. exfalso. apply H2. left. congruence.
  - injection E as E1 _. exfalso. apply H1. left. congruence.
  - injection E as E1 E2. subst c2. f_equal.
    apply IH; [tauto | tauto | exact E2].
Qed.

(** X12. Where the texts hold no quotation mark the exported line tells
    them apart: two items whose lines are equal have the same text. *)
Theorem csvLine_text_injective (Number_toString : Q -> string)
  (r1 r2 : AnalyzeTextResponse)
  (Q1 : ~ occurs dquote (text r1)) (Q2 : ~ occurs dquote (text r2))
  (E : csvLine Number_toString (exportRow r1)
       = csvLine Number_toString (exportRow r2)) :
  text r1 = text r2.
Proof.
  unfold csvLine, exportRow, quoted in E. simpl in E.
  injection E as E. repeat rewrite append_assoc in E. simpl in E.
  exact (@append_quote_inj _ _ _ _ Q1 Q2 E).
Qed.

Lemma csvLine_text_injective_witness :
  text (plainItem "a") = text (plainItem "a").
Proof.
  refine (@csvLine_text_injective (fun _ => "0") (plainItem "a")
            (plainItem "a") _ _ eq_refl);
    simpl; intros [H | []]; vm_compute in H; discriminate H.
Defined.

End BatchForm.

(* ================================================================== *)
(** * More on the upload component *)

Module UploadFacts.

Import JSString JSNumber Utils Types Effects JSFacts FileUploadDemo Upload.
Local Open Scope string_scope.

Lemma split_nonempty sep s : split sep s <> [].
Proof.
  destruct s as [|c s]; simpl; [discriminate|].
  destruct (Ascii.eqb c sep); [discriminate|].
  destruct (split sep s); discriminate.
Qed.

(** Splitting at an occurrence of the separator splits the two sides. *)
Lemma split_app_sep sep a b :
  split sep (a ++ String sep b) = (split sep a ++ split sep b)%list.
Proof.
  induction a as [|c a IH]; simpl.
  - rewrite Ascii.eqb_refl. reflexivity.
  - destruct (Ascii.eqb c sep); [rewrite IH; reflexivity|].
    rewrite IH. destruct (split sep a) as [|p ps] eqn:E.
    + exfalso. exact (split_nonempty sep a E).
    + reflexivity.
Qed.

Lemma split_no_sep sep b : ~ occurs sep b -> split sep b = [b].
Proof.
  induction b as [|c b IH]; simpl; intros H; [reflexivity|].
  destruct (Ascii.eqb_spec c sep) as [E | N]; [exfalso; apply H; auto|].
  rewrite IH by tauto. reflexivity.
Qed.

Lemma pop_app l1 l2 : l2 <> [] -> pop (l1 ++ l2) = pop l2.
Proof.
  intros N. unfold pop. rewrite rev_app_distr.
  destruct (rev l2) as [|x r] eqn:E; [|reflexivity].
  exfalso. apply N. rewrite <- (rev_involutive l2), E. reflexivity.
Qed.

(** For a name with a dot, the extension is the lower-cased part after
    the last dot. *)
Lemma fileExtension_dotted f stem ext :
  name f = stem ++ String "." ext -> ~ occurs "."%char ext ->
  fileExtension f = String "." (toLowerCase ext).
Proof.
  intros E N. unfold fileExtension.
  rewrite E, split_app_sep, pop_app by apply split_nonempty.
  rewrite (@split_no_sep _ _ N). reflexivity.
Qed.

Lemma allowed_spec e :
  arrayIncludes allowedTypes (String "." e) = true <-> e = "txt" \/ e = "csv".
Proof.
  unfold arrayIncludes, allowedTypes.
  cbn [existsb]. rewrite !orb_true_iff.
  change (String.eqb (String "." e) ".txt") with (String.eqb e "txt").
  change (String.eqb (String "." e) ".csv") with (String.eqb e "csv").
  rewrite !String.eqb_eq. split; [intros [H | [H | H]] | intros [H | H]]; auto.
  discriminate H.
Qed.

(** X13. For a file whose name is a stem, a dot and an extension without
    a dot, [handleFileSelect] stores the file and clears the error when
    the extension is txt or csv in any letter case and the size is at
    most 10 * 1024 * 1024 bytes; with another extension, or a larger
    size, it keeps the file chosen before and sets the error of the
    refused test. *)
Theorem handleFileSelect_dotted_name (st : State) (f : File)
  (stem ext : string)
  (E : name f = stem ++ String "." ext) (N : ~ occurs "."%char ext) :
  let st' := handleFileSelect st (Some f) in
  let known := toLowerCase ext = "txt" \/ toLowerCase ext = "csv" in
  (known -> (size f <= maxFileSize)%N ->
     file st' = Some f /\ st_error st' = None)
  /\ (~ known ->
      file st' = file st
      /\ st_error st' = Some "Please select a .txt or .csv file")
  /\ (known -> (maxFileSize < size f)%N ->
      file st' = file st
      /\ st_error st' = Some "File size must be less than 10MB").
Proof.
  cbv zeta. unfold handleFileSelect.
  rewrite (@fileExtension_dotted f stem ext E N).
  destruct (arrayIncludes allowedTypes (String "." (toLowerCase ext))) eqn:A.
  - apply allowed_spec in A. simpl.
    destruct (N.ltb_spec maxFileSize (size f)) as [L | L]; simpl.
    + split; [intros _ L'; lia|]. split; [tauto | auto].
    + split; [auto|]. split; [tauto | intros _ L'; lia].
  - assert (K : ~ (toLowerCase ext = "txt" \/ toLowerCase ext = "csv")).
    { intros K. apply allowed_spec in K. congruence. }
    simpl. split; [tauto|]. split; [auto | tauto].
Qed.

Lemma handleFileSelect_dotted_name_witness :
  file (handleFileSelect noFile (Some (mkFile "notes.TXT" 2048 "text/plain")))
  = Some (mkFile "notes.TXT" 2048 "text/plain")
  /\ st_error (handleFileSelect noFile
                 (Some (mkFile "notes.TXT" 2048 "text/plain"))) = None.
Proof.
  refine (proj1 (@handleFileSelect_dotted_name noFile
                   (mkFile "notes.TXT" 2048 "text/plain") "notes" "TXT"
                   eq_refl _) _ _).
  - simpl. intros [H | [H | [H | []]]]; vm_compute in H; discriminate H.
  - left. reflexivity.
  - vm_compute. discriminate.
Defined.

Lemma pollStep_invariant jobId p e :
  isPolling (component p) = intervalActive p ->
  let p' := fst (pollStep jobId p e) in
  let out := requests (snd (pollStep jobId p e)) in
  isPolling (component p') = intervalActive p'
  /\ (List.length out <= (if isTick e then 1 else 0))%nat
  /\ (pending p' <= pending p + List.length out)%nat
  /\ file (component p') = file (component p)
  /\ st_error (component p') = st_error (component p).
Proof.
  intros I. destruct e as [|j|]; simpl.
  - destruct (intervalActive p) eqn:A; simpl;
      repeat split; try congruence; try lia.
  - destruct (pending p) as [|n] eqn:P; simpl;
      [repeat split; try congruence; try lia|].
    destruct (isTerminal (status j)); simpl;
      repeat split; try congruence; try lia.
  - destruct (pending p) as [|n] eqn:P; simpl;
      repeat split; try congruence; try lia.
Qed.

Lemma pollRun_invariant jobId es :
  forall p, isPolling (component p) = intervalActive p ->
    let p' := fst (pollRun jobId p es) in
    let out := requests (snd (pollRun jobId p es)) in
    isPolling (component p') = intervalActive p'
    /\ (List.length out <= countTicks es)%nat
    /\ (pending p' <= pending p + List.length out)%nat
    /\ file (component p') = file (component p)
    /\ st_error (component p') = st_error (component p).
Proof.
  induction es as [|e es IH]; intros p I; cbv zeta.
  - simpl. repeat split; auto; lia.
  - rewrite Polling.pollRun_cons. simpl fst. simpl snd.
    rewrite Polling.requests_app, length_app.
    destruct (@pollStep_invariant jobId p e I) as [A [B [C [D F]]]].
    destruct (IH _ A) as [A' [B' [C' [D' F']]]].
    split; [exact A'|].
    split; [unfold countTicks in *; simpl; destruct (isTick e); simpl in *; lia|].
    split; [lia|]. split; congruence.
Qed.

(** X14. Whatever the ticks, replies and failures after [startPolling]:
    the flag [isPolling] of the component is on exactly while the
    interval is active; no more status requests are sent than ticks have
    fired; no more replies are awaited than requests were sent; and the
    chosen file and the error of the component are not touched. *)
Theorem polling_invariants (jobId : string) (st : State)
  (es : list PollEvent) :
  let p := after jobId st es in
  isPolling (component p) = intervalActive p
  /\ (List.length (sent jobId (startPolling st) es) <= countTicks es)%nat
  /\ (pending p <= List.length (sent jobId (startPolling st) es))%nat
  /\ file (component p) = file st
  /\ st_error (component p) = st_error st.
Proof.
  cbv zeta. unfold after, sent.
  destruct (@pollRun_invariant jobId es (startPolling st) eq_refl)
    as [A [B [C [D F]]]].
  simpl in C, D, F. auto.
Qed.

(** X15. Without statistics from the server, the statistics that
    [getJobStats] computes from the results are consistent: the total is
    the number of results, the toxic count lies between 0 and the total,
    and toxic and safe add up to the total.  With statistics from the
    server the results are not read, and the counts add up when the
    harassment count is given and not zero. *)
Theorem getJobStats_counts :
  (forall st job rs,
     jobStatus st = Some job -> statistics job = None ->
     results job = Some rs ->
     exists stats,
       getJobStats st = Some stats
       /\ (total stats == ofLength rs)%Q
       /\ (toxic stats + safe stats == total stats)%Q
       /\ (0 <= toxic stats)%Q /\ (toxic stats <= total stats)%Q)
  /\ (forall st job s c,
        jobStatus st = Some job -> statistics job = Some s ->
        harassment_count s = Some c -> ~ (c == 0)%Q ->
        exists stats,
          getJobStats st = Some stats
          /\ total stats = orNum (total_comments s) 0
          /\ toxic stats = c
          /\ (toxic stats + safe stats == total stats)%Q).
Proof.
  split.
  - intros st job rs Hj Hs Hr. unfold getJobStats. rewrite Hj, Hs, Hr.
    eexists. split; [reflexivity|]. cbn [total toxic safe].
    split; [reflexivity|]. split; [ring|].
    unfold ofLength. rewrite <- !Zle_Qle.
    pose proof (filter_length_le
                  (fun item => is_harassment item || is_toxic item) rs).
    split; [change 0%Q with (inject_Z 0); rewrite <- Zle_Qle|]; lia.
  - intros st job s c Hj Hs Hc Hn. unfold getJobStats. rewrite Hj, Hs.
    eexists. split; [reflexivity|]. cbn [total toxic safe].
    rewrite Hc.
    assert (O : forall y, orNum (Some c) y = c).
    { intros y. unfold orNum. destruct (Qeq_bool c 0) eqn:E; [|reflexivity].
      apply Qeq_bool_iff in E. contradiction. }
    rewrite !O. split; [reflexivity|]. split; [reflexivity | ring].
Qed.

Lemma getJobStats_counts_witness :
  exists stats,
    getJobStats emptyJobState = Some stats
    /\ (total stats == ofLength (@nil AnalyzeTextResponse))%Q
    /\ (toxic stats + safe stats == total stats)%Q
    /\ (0 <= toxic stats)%Q /\ (toxic stats <= total stats)%Q.
Proof.
  exact (proj1 getJobStats_counts emptyJobState emptyJob []
           eq_refl eq_refl eq_refl).
Defined.

Lemma simulatedProgress_formula ticks :
  simulatedProgress ticks = Nat.min (10 * ticks) 90.
Proof.
  unfold simulatedProgress. induction ticks as [|n IH]; [reflexivity|].
  rewrite Nat.iter_succ, IH. unfold progressUpdater.
  destruct (Nat.leb_spec 90 (Nat.min (10 * n) 90)); lia.
Qed.

(** X16. The simulated progress of an upload is ten points a tick up to
    90 and never more.  With a file chosen, [handleUpload] sends it and
    ends with [isUploading] false; after a successful upload the
    progress is 100, the job is shown as processing under the id of the
    reply and the polling interval is running; after a failed one the
    error is set, no polling starts and the job shown stays. *)
Theorem handleUpload_outcome (st : State) (ticks : nat)
  (outcome : UploadOutcome) :
  simulatedProgress ticks = Nat.min (10 * ticks) 90
  /\ (file st = None -> handleUpload st ticks outcome = mkUploadResult st None [])
  /\ (forall f, file st = Some f ->
        let r := handleUpload st ticks outcome in
        isUploading (finalState r) = false
        /\ file (finalState r) = Some f
        /\ In (SendFile f) (effects r)
        /\ (forall resp, outcome = Uploaded resp ->
              exists p,
                poller r = Some p
                /\ component p = finalState r
                /\ intervalActive p = true /\ pending p = 0%nat
                /\ isPolling (finalState r) = true
                /\ uploadProgress (finalState r) = 100%nat
                /\ st_error (finalState r) = None
                /\ option_map status (jobStatus (finalState r))
                   = Some processing
                /\ option_map jobId (jobStatus (finalState r))
                   = Some (up_jobId resp))
        /\ (forall message, outcome = UploadFailed message ->
              poller r = None
              /\ (exists e, st_error (finalState r) = Some e)
              /\ (uploadProgress (finalState r) <= 90)%nat
              /\ jobStatus (finalState r) = jobStatus st
              /\ isPolling (finalState r) = isPolling st)).
Proof.
  split; [apply simulatedProgress_formula|].
  split; [intros H; unfold handleUpload; rewrite H; reflexivity|].
  intros f H. cbv zeta. unfold handleUpload. rewrite H.
  destruct outcome as [resp | message]; simpl.
  - split; [reflexivity|]. split; [reflexivity|]. split; [auto|].
    split; [|discriminate].
    intros r [= <-]. eexists. split; [reflexivity|]. simpl.
    repeat split.
  - split; [reflexivity|]. split; [reflexivity|]. split; [auto|].
    split; [discriminate|].
    intros m _. split; [reflexivity|]. split; [eexists; reflexivity|].
    split; [rewrite simulatedProgress_formula; lia|]. split; reflexivity.
Qed.

End UploadFacts.

(* ================================================================== *)
(** * The uptime shown by the status panel *)

Module Uptime.

Import JSString JSNumber JSFacts ApiStatusDemo.
Local Open Scope Q_scope.

Lemma floor_bounds (x : Q) :
  inject_Z (Qfloor x) <= x /\ x < inject_Z (Qfloor x) + 1.
Proof.
  split; [apply Qfloor_le|].
  pose proof (Qlt_floor x) as H. rewrite inject_Z_plus in H. exact H.
Qed.

Lemma floor_nonneg (x : Q) : 0 <= x -> (0 <= Qfloor x)%Z.
Proof.
  intros H. change 0%Z with (Qfloor 0). apply Qfloor_resp_le, H.
Qed.

Lemma truncate_nonneg (x : Q) : 0 <= x -> truncate x = Qfloor x.
Proof.
  intros H. unfold truncate.
  destruct (lt x 0) eqn:E; [|reflexivity].
  apply lt_spec in E. lra.
Qed.

(** X17. For an uptime between 0 and 10^15 seconds, the hours and
    minutes that [formatUptime] prints are the whole hours and the whole
    minutes of the rest: the minutes are below 60, and the uptime is at
    least the time printed and less than a minute more.  The hours are
    printed exactly when the uptime is an hour or more.  The upper bound
    keeps the uptime where the rounded quotients of the code have the
    floors of the exact ones. *)
Theorem formatUptime_parts (seconds : Q)
  (H : 0 <= seconds) (B : seconds <= 1000000000000000) :
  let h := uptimeHours seconds in
  let m := uptimeMinutes seconds in
  (0 <= h)%Z /\ (0 <= m < 60)%Z
  /\ inject_Z (3600 * h + 60 * m) <= seconds
  /\ seconds < inject_Z (3600 * h + 60 * m + 60)
  /\ (seconds < 3600 ->
      formatUptime seconds = (ofZ m ++ "m")%string)
  /\ (3600 <= seconds ->
      formatUptime seconds = (ofZ h ++ "h " ++ ofZ m ++ "m")%string).
Proof.
  cbv zeta. unfold formatUptime, uptimeMinutes, uptimeHours, remainder.
  assert (Q0 : 0 <= seconds / 3600).
  { apply Qle_shift_div_l; lra. }
  rewrite (truncate_nonneg Q0).
  destruct (floor_bounds (seconds / 3600)) as [F1 F2].
  pose proof (floor_nonneg Q0) as F0.
  set (h := Qfloor (seconds / 3600)) in *.
  assert (S1 : seconds / 3600 * 3600 == seconds) by (field).
  assert (R0 : 0 <= seconds - 3600 * inject_Z h) by lra.
  assert (R1 : seconds - 3600 * inject_Z h < 3600) by lra.
  set (r := seconds - 3600 * inject_Z h) in *.
  assert (Q1 : 0 <= r / 60) by (apply Qle_shift_div_l; lra).
  destruct (floor_bounds (r / 60)) as [G1 G2].
  pose proof (floor_nonneg Q1) as G0.
  set (m := Qfloor (r / 60)) in *.
  assert (S2 : r / 60 * 60 == r) by (field).
  assert (M60 : (m < 60)%Z).
  { rewrite Zlt_Qlt. change (inject_Z 60) with 60. lra. }
  split; [exact F0|]. split; [lia|].
  rewrite !inject_Z_plus, !inject_Z_mult.
  change (inject_Z 3600) with 3600. change (inject_Z 60) with 60.
  split; [subst r; lra|]. split; [subst r; lra|].
  split.
  - intros L. assert (K : (h < 1)%Z).
    { rewrite Zlt_Qlt. change (inject_Z 1) with 1. lra. }
    destruct (Z.ltb_spec 0 h); [lia | reflexivity].
  - intros L. assert (K : (1 <= h)%Z).
    { change 1%Z with (Qfloor 1). apply Qfloor_resp_le. lra. }
    destruct (Z.ltb_spec 0 h); [reflexivity | lia].
Qed.

Lemma formatUptime_parts_witness :
  formatUptime 3725 = "1h 2m"%string.
Proof.
  refine (proj2 (proj2 (proj2 (proj2 (proj2
            (@formatUptime_parts 3725 _ _))))) _); lra.
Defined.

End Uptime.

(* ================================================================== *)
(** * The refetch rule of [useJobStatus] *)

Module RefetchRule.

Import JSString Types Hooks.
Local Open Scope string_scope.

Lemma isString_spec v literal :
  isString v literal = true <-> v = JString literal.
Proof.
  destruct v; simpl; try (split; [discriminate | congruence]).
  rewrite String.eqb_eq. split; congruence.
Qed.

(** X18. The refetch rule of [useJobStatus] asks for another fetch, after
    2000 ms, exactly when the data is an object whose [job] property is
    an object with the status running or queued.  Of the four statuses
    of the API only queued does that, processing does not; and data
    without a [job] property, as a job reply with its status at the top
    level, is never fetched again. *)
Theorem refetchInterval_rule (data : JSValue) :
  (refetchInterval data = Some 2000
   <-> exists fields jobFields,
         data = JObject fields
         /\ lookup "job" fields = JObject jobFields
         /\ (lookup "status" jobFields = JString "running"
             \/ lookup "status" jobFields = JString "queued"))
  /\ (refetchInterval data = None \/ refetchInterval data = Some 2000)
  /\ (forall (s : JobStatus) (others rest : Fields),
        refetchInterval
          (JObject (Field "job"
                      (JObject (Field "status" (JString (statusString s))
                                  others))
                      rest)) = Some 2000
        <-> s = queued)
  /\ (forall fields,
        lookup "job" fields = JUndefined ->
        refetchInterval (JObject fields) = None).
Proof.
  split; [|split; [|split]].
  - unfold refetchInterval. split.
    + destruct (isString _ "running" || isString _ "queued") eqn:E;
        [|discriminate].
      intros _. apply orb_true_iff in E. rewrite !isString_spec in E.
      destruct data as [| | |fields]; simpl in E;
        try (destruct E; discriminate).
      destruct (lookup "job" fields) as [| | |jobFields] eqn:J; simpl in E;
        try (destruct E; discriminate).
      exists fields, jobFields. auto.
    + intros [fields [jobFields [-> [J S]]]]. simpl. rewrite J. simpl.
      destruct S as [-> | ->]; reflexivity.
  - unfold refetchInterval.
    destruct (isString _ "running" || isString _ "queued"); auto.
  - intros s others rest. destruct s; simpl;
      split; try reflexivity; try discriminate.
  - intros fields J. unfold refetchInterval. simpl. rewrite J. reflexivity.
Qed.

End RefetchRule.

(* ================================================================== *)
(** * The authentication state *)

Module AuthFacts.

Import JSString JSNumber JSFacts AuthContext.
Local Open Scope string_scope.

Lemma authReducer_keeps state action :
  (isAuthenticated state = true -> user state <> None) ->
  (error state <> None ->
   isAuthenticated state = false /\ isLoading state = false) ->
  (isAuthenticated (authReducer state action) = true ->
   user (authReducer state action) <> None)
  /\ (error (authReducer state action) <> None ->
      isAuthenticated (authReducer state action) = false
      /\ isLoading (authReducer state action) = false).
Proof.
  intros A B. destruct action; simpl; split; intros H;
    try discriminate; try congruence; auto.
Qed.

Lemma dispatchAll_keeps actions :
  forall state,
    (isAuthenticated state = true -> user state <> None) ->
    (error state <> None ->
     isAuthenticated state = false /\ isLoading state = false) ->
    (isAuthenticated (dispatchAll state actions) = true ->
     user (dispatchAll state actions) <> None)
    /\ (error (dispatchAll state actions) <> None ->
        isAuthenticated (dispatchAll state actions) = false
        /\ isLoading (dispatchAll state actions) = false).
Proof.
  induction actions as [|a actions IH]; intros state A B; simpl; [auto|].
  destruct (@authReducer_keeps state a A B) as [A' B'].
  apply IH; assumption.
Qed.

(** X19. Whatever actions are dispatched from the initial state, an
    authenticated state has a user, and a state with an error is neither
    authenticated nor loading.  A logout or a failure as last action
    leaves no user and no authentication, whatever came before. *)
Theorem authReducer_invariants (actions : list AuthAction) :
  let s := dispatchAll initialState actions in
  (isAuthenticated s = true -> user s <> None)
  /\ (error s <> None -> isAuthenticated s = false /\ isLoading s = false)
  /\ dispatchAll initialState (actions ++ [AUTH_LOGOUT])
     = mkAuthState None false false None
  /\ (forall message,
        dispatchAll initialState (actions ++ [AUTH_FAILURE message])
        = mkAuthState None false false (Some message)).
Proof.
  cbv zeta.
  destruct (@dispatchAll_keeps actions initialState) as [A B];
    [discriminate | intros H; exfalso; apply H; reflexivity |].
  split; [exact A|]. split; [exact B|].
  unfold dispatchAll. split; [|intros message];
    rewrite fold_left_app; reflexivity.
Qed.

(** X20. Tokens without [expiresAt] are never reported expired.  With
    it, they are reported expired exactly from five minutes before that
    time on, and once expired they stay expired. *)
Theorem isTokenExpired_rule (now later : Q) (tokens : AuthTokens) :
  (expiresAt tokens = None -> isTokenExpired now tokens = false)
  /\ (forall e, expiresAt tokens = Some e ->
        (isTokenExpired now tokens = true <-> (e - 300000 <= now)%Q))
  /\ ((now <= later)%Q -> isTokenExpired now tokens = true ->
      isTokenExpired later tokens = true).
Proof.
  unfold isTokenExpired, bufferTime.
  destruct (expiresAt tokens) as [e|].
  - split; [discriminate|]. split.
    + intros e' [= <-]. apply ge_spec.
    + intros L H. apply ge_spec in H. apply ge_spec. lra.
  - split; [reflexivity|]. split; [discriminate | auto].
Qed.

End AuthFacts.

(* ================================================================== *)
(** * The delay before a retry *)

Module Backoff.

Import JSNumber JSFacts ApiClient.
Local Open Scope Q_scope.

Lemma pow2_bounds (n : nat) :
  (1 <= 2 ^ Z.of_nat n)%Z
  /\ ((5 <= n)%nat -> (32 <= 2 ^ Z.of_nat n)%Z)
  /\ ((n <= 4)%nat -> (2 ^ Z.of_nat n <= 16)%Z).
Proof.
  split; [|split].
  - change 1%Z with (2 ^ 0)%Z. apply Z.pow_le_mono_r; lia.
  - intros H. change 32%Z with (2 ^ 5)%Z. apply Z.pow_le_mono_r; lia.
  - intros H. change 16%Z with (2 ^ 4)%Z. apply Z.pow_le_mono_r; lia.
Qed.

(** X21. With a jitter of at least 0 and below 1000, the delay of
    [calculateBackoffDelay] is at least 1000 ms and at most 30000 ms; up
    to the fourth retry it is 1000 * 2^retryCount plus the jitter, from
    the fifth on it is the cap of 30000 ms; and a later retry never
    waits less. *)
Theorem calculateBackoffDelay_bounds (retryCount later : nat) (jitter : Q)
  (J : 0 <= jitter < 1000) :
  let d := calculateBackoffDelay retryCount jitter in
  1000 <= d /\ d <= 30000
  /\ ((retryCount <= 4)%nat ->
      d = 1000 * inject_Z (2 ^ Z.of_nat retryCount) + jitter)
  /\ ((5 <= retryCount)%nat -> d = 30000)
  /\ ((retryCount <= later)%nat ->
      d <= calculateBackoffDelay later jitter).
Proof.
  cbv zeta. unfold calculateBackoffDelay, RETRY_DELAY, maxDelay.
  destruct (pow2_bounds retryCount) as [P1 [P5 P4]].
  rewrite Zle_Qle in P1. change (inject_Z 1) with 1 in P1.
  set (x := inject_Z (2 ^ Z.of_nat retryCount)) in *.
  assert (M : forall y, Math_min y 30000 <= 30000 /\ Math_min y 30000 <= y
                        /\ (y <= 30000 -> Math_min y 30000 = y)
                        /\ (30000 < y -> Math_min y 30000 = 30000)).
  { intros y. unfold Math_min. destruct (lt 30000 y) eqn:E.
    - apply lt_spec in E. repeat split; try lra.
    - apply lt_false in E. repeat split; try lra. }
  destruct (M (1000 * x + jitter)) as [M1 [M2 [M3 M4]]].
  split.
  { destruct (Qlt_le_dec 30000 (1000 * x + jitter)) as [L | L];
      [rewrite (M4 L) | rewrite (M3 L)]; lra. }
  split; [exact M1|]. split.
  { intros H. apply M3. specialize (P4 H). rewrite Zle_Qle in P4.
    change (inject_Z 16) with 16 in P4. fold x in P4. lra. }
  split.
  { intros H. apply M4. specialize (P5 H). rewrite Zle_Qle in P5.
    change (inject_Z 32) with 32 in P5. fold x in P5. lra. }
  intros H.
  assert (X : x <= inject_Z (2 ^ Z.of_nat later)).
  { subst x. rewrite <- Zle_Qle. apply Z.pow_le_mono_r; lia. }
  set (x' := inject_Z (2 ^ Z.of_nat later)) in *.
  destruct (M (1000 * x' + jitter)) as [N1 [N2 [N3 N4]]].
  destruct (Qlt_le_dec 30000 (1000 * x' + jitter)) as [L | L].
  - rewrite (N4 L). exact M1.
  - rewrite (N3 L). lra.
Qed.

Lemma calculateBackoffDelay_bounds_witness :
  calculateBackoffDelay 7 500 = 30000.
Proof.
  refine (proj1 (proj2 (proj2 (proj2
            (@calculateBackoffDelay_bounds 7 7 500 _)))) _); [lra | lia].
Defined.

End Backoff.

(* ================================================================== *)
(** * Failure paths of the analysis handlers *)

Module FailurePaths.

Import JSString JSNumber Utils Types Effects JSFacts.
Local Open Scope string_scope.

(** X22. When the batch request fails, [handleBatchAnalysis] clears the
    results shown before, ends with [isAnalyzing] false, and sets as
    error the message of the failure, or the default message when the
    failure has none; the same message goes into a destructive toast. *)
Theorem handleBatchAnalysis_failure (st : BatchAnalysisDemo.State)
  (message : option string)
  (N : filter (fun t => (0 <? String.length (trim t))%nat)
         (BatchAnalysisDemo.texts st) <> []) :
  let out := BatchAnalysisDemo.handleBatchAnalysis st
               (BatchAnalysisDemo.Rejected message) in
  BatchAnalysisDemo.st_results (fst out) = []
  /\ BatchAnalysisDemo.isAnalyzing (fst out) = false
  /\ exists e request,
       BatchAnalysisDemo.st_error (fst out) = Some e
       /\ e <> EmptyString
       /\ (forall m, message = Some m -> m <> EmptyString -> e = m)
       /\ (message = None \/ message = Some EmptyString ->
           e = "Failed to analyze texts. Please try again.")
       /\ snd out = [request; ShowToast (mkToast "Batch Analysis Failed" e true)].
Proof.
  cbv zeta. unfold BatchAnalysisDemo.handleBatchAnalysis.
  destruct (filter _ (BatchAnalysisDemo.texts st)) as [|t ts]; [congruence|].
  simpl. split; [reflexivity|]. split; [reflexivity|].
  eexists. eexists. split; [reflexivity|].
  split; [|split; [|split; [|reflexivity]]].
  - destruct message as [[|c m]|]; simpl; discriminate.
  - intros m -> Hm. destruct m; [congruence | reflexivity].
  - intros [-> | ->]; reflexivity.
Qed.

Lemma handleBatchAnalysis_failure_witness :
  BatchAnalysisDemo.st_results
    (fst (BatchAnalysisDemo.handleBatchAnalysis
            (BatchAnalysisDemo.loadSampleData BatchAnalysisDemo.initialState)
            (BatchAnalysisDemo.Rejected None))) = [].
Proof.
  refine (proj1 (@handleBatchAnalysis_failure
                   (BatchAnalysisDemo.loadSampleData
                      BatchAnalysisDemo.initialState) None _)).
  discriminate.
Defined.

(** X23. [analyzeText] on a blank text sends nothing and leaves the
    state as it is.  On any other text it sends one request with the
    text as typed and ends with [isAnalyzing] false: a reply that is not
    ok, or not JSON, or no reply at all, leaves the list of results
    untouched; a good reply puts one result in front of the list, for
    the selected platform and the text as typed. *)
Theorem analyzeText_paths (st : HarassmentDetectionDemo.State)
  (reply : HarassmentDetectionDemo.FetchOutcome)
  (d : HarassmentDetectionDemo.Draws) :
  let out := HarassmentDetectionDemo.analyzeText st reply d in
  (trim (HarassmentDetectionDemo.st_text st) = EmptyString ->
     fst out = st /\ requests (snd out) = [])
  /\ (trim (HarassmentDetectionDemo.st_text st) <> EmptyString ->
      requests (snd out)
      = [Post "/api/analyze" (TextBody (HarassmentDetectionDemo.st_text st))]
      /\ HarassmentDetectionDemo.isAnalyzing (fst out) = false
      /\ (reply <> HarassmentDetectionDemo.Responded true true ->
          HarassmentDetectionDemo.results (fst out)
          = HarassmentDetectionDemo.results st)
      /\ (reply = HarassmentDetectionDemo.Responded true true ->
          exists r,
            HarassmentDetectionDemo.results (fst out)
            = r :: HarassmentDetectionDemo.results st
            /\ HarassmentDetectionDemo.platform r
               = HarassmentDetectionDemo.selectedPlatform st
            /\ HarassmentDetectionDemo.text r
               = HarassmentDetectionDemo.st_text st)).
Proof.
  cbv zeta. unfold HarassmentDetectionDemo.analyzeText.
  destruct (truthy (trim (HarassmentDetectionDemo.st_text st))) eqn:T; simpl.
  - apply truthy_spec in T. split; [congruence|]. intros _.
    destruct reply as [|[|] [|]]; simpl;
      (split; [reflexivity|]); (split; [reflexivity|]);
      (split; [try congruence; try reflexivity|]);
      try discriminate; try (intros; reflexivity).
    intros _. eexists. split; [reflexivity|]. split; reflexivity.
  - split; [auto|]. intros N. exfalso.
    destruct (trim (HarassmentDetectionDemo.st_text st));
      [congruence | discriminate].
Qed.

End FailurePaths.

(* ================================================================== *)
(** * The scroll bar and the particles *)

Module DecorationFacts.

Import JSNumber JSFacts Decoration.
Local Open Scope Q_scope.

(** X24. On a page taller than its window, with a scroll position
    between the top and the end, the progress of [handleScroll] is a
    finite value between 0 and 100, and the button to the top shows
    exactly beyond 500 pixels.  On a page exactly as tall as its window
    the progress at the top is NaN. *)
Theorem handleScroll_progress (scrollTop scrollHeight clientHeight : Q) :
  (clientHeight < scrollHeight ->
   0 <= scrollTop -> scrollTop <= scrollHeight - clientHeight ->
   exists q,
     fst (handleScroll scrollTop scrollHeight clientHeight) = Finite q
     /\ 0 <= q /\ q <= 100
     /\ q * (scrollHeight - clientHeight) == scrollTop * 100)
  /\ (snd (handleScroll scrollTop scrollHeight clientHeight) = true
      <-> 500 < scrollTop)
  /\ (scrollHeight == clientHeight -> scrollTop == 0 ->
      fst (handleScroll scrollTop scrollHeight clientHeight) = NaN).
Proof.
  unfold handleScroll. simpl. split; [|split].
  - intros L T0 T1. unfold div.
    destruct (Qeq_bool (scrollHeight - clientHeight) 0) eqn:E.
    { apply Qeq_bool_iff in E. lra. }
    simpl. eexists. split; [reflexivity|].
    set (w := scrollHeight - clientHeight) in *.
    assert (W : 0 < w) by (subst w; lra).
    assert (D : scrollTop / w * w == scrollTop) by (field; lra).
    assert (D0 : 0 <= scrollTop / w) by (apply Qle_shift_div_l; lra).
    assert (D1 : scrollTop / w <= 1) by (apply Qle_shift_div_r; lra).
    split; [lra|]. split; [lra|]. rewrite <- D at 2. ring.
  - unfold gt. apply lt_spec.
  - intros E T. unfold div.
    assert (E1 : Qeq_bool (scrollHeight - clientHeight) 0 = true)
      by (apply Qeq_bool_iff; lra).
    assert (E2 : Qeq_bool scrollTop 0 = true) by (apply Qeq_bool_iff, T).
    rewrite E1, E2. reflexivity.
Qed.

Lemma handleScroll_progress_witness :
  exists q,
    fst (handleScroll 250 1800 800) = Finite q
    /\ 0 <= q /\ q <= 100 /\ q * (1800 - 800) == 250 * 100.
Proof.
  refine (proj1 (handleScroll_progress 250 1800 800) _ _ _); lra.
Defined.

(** X25. Whatever the width of the window, between 20 and 50 particles
    are asked for.  On a canvas whose extent is not negative a
    coordinate is inside the canvas after every frame, wherever the
    particle was and whatever its speed. *)
Theorem particles_stay_inside (innerWidth x speed extent : Q)
  (E : 0 <= extent) :
  20 <= particleCount innerWidth /\ particleCount innerWidth <= 50
  /\ 0 <= moveWrapped x speed extent
  /\ moveWrapped x speed extent <= extent.
Proof.
  unfold particleCount, moveWrapped, Math_min, Math_max, gt.
  repeat match goal with
         | |- context [lt ?a ?b] =>
             let F := fresh "F" in
             destruct (lt a b) eqn:F;
             [apply lt_spec in F | apply lt_false in F]
         end; repeat split; lra.
Qed.

Lemma particles_stay_inside_witness :
  20 <= particleCount 1280 /\ particleCount 1280 <= 50
  /\ 0 <= moveWrapped 799 (3 # 2) 800
  /\ moveWrapped 799 (3 # 2) 800 <= 800.
Proof.
  apply (@particles_stay_inside 1280 799 (3 # 2) 800). lra.
Defined.

End DecorationFacts.
